(** * LearnPathShower: the Streamlit learning-path page, embedded and verified

    The repository is one Python script, [learningPath.py].  It defines two
    helpers ([call_gemini], [pomodoro_timer]) and then runs, top to bottom,
    the page itself: credential check, sidebar, learning-path generation,
    progress tracker, study buddy, project idea, quiz, footer.

    The embedding follows the script.
    - A Python [str] is a list of code points ([N]).
    - A Python object is a [pyval]; decoded JSON lives in the same type.
    - Code that can raise returns a [result]; the script itself runs in the
      monad [M], which threads the Streamlit session state and a trace of
      everything the script does to the outside (widgets drawn, session
      writes, HTTP requests, sleeps) and ends in a value, an exception or
      Streamlit's script stop.
    - What lies outside the repository (the secrets file, the widgets'
      return values, the HTTP transport, the clock and the Unicode tables of
      [str.lower]) is a parameter of the model. *)

From Stdlib Require Import ZArith NArith List String Ascii QArith DecimalString Lia.
From stdpp Require Import gmap list.

Set Warnings "-register-all".
Local Open Scope Z_scope.

(** ** Python strings *)

Module Py.

Abbreviation str := (list N).

(** An ASCII literal of the script as a list of code points. *)
Definition u (s : string) : str := map N_of_ascii (list_ascii_of_string s).

(** [s.startswith(prefix)] *)
Fixpoint startswith (s prefix : str) {struct prefix} : bool :=
  match prefix, s with
  | [], _ => true
  | _ :: _, [] => false
  | p :: prefix', c :: s' => (c =? p)%N && startswith s' prefix'
  end.

(** [needle in s], for strings. *)
Fixpoint contains (s needle : str) : bool :=
  startswith s needle ||
  match s with
  | [] => false
  | _ :: s' => contains s' needle
  end.

(** [s.split(sep)] for a separator of one code point: always at least one
    piece, [''.split(sep) == ['']]. *)
Fixpoint split (s : str) (sep : N) : list str :=
  match s with
  | [] => [[]]
  | c :: s' =>
      if (c =? sep)%N then [] :: split s' sep
      else match split s' sep with
           | [] => [[c]]
           | piece :: pieces => (c :: piece) :: pieces
           end
  end.

(** [sep.join(items)] *)
Fixpoint join (sep : str) (items : list str) : str :=
  match items with
  | [] => []
  | [x] => x
  | x :: rest => x ++ sep ++ join sep rest
  end.

(** [c.isspace()]: the code points Python treats as whitespace. *)
Definition isspace (c : N) : bool :=
  ((9 <=? c) && (c <=? 13) || (28 <=? c) && (c <=? 32) ||
   (c =? 0x85) || (c =? 0xA0) || (c =? 0x1680) ||
   (0x2000 <=? c) && (c <=? 0x200A) ||
   (c =? 0x2028) || (c =? 0x2029) || (c =? 0x202F) ||
   (c =? 0x205F) || (c =? 0x3000))%N.

Fixpoint lstrip (s : str) : str :=
  match s with
  | [] => []
  | c :: s' => if isspace c then lstrip s' else s
  end.

Definition rstrip (s : str) : str := rev (lstrip (rev s)).

(** [s.strip()] *)
Definition strip (s : str) : str := rstrip (lstrip s).

(** [str.lower] on the Basic Latin block, where it is a map over the code
    points. *)
Definition ascii_lower (c : N) : N :=
  if ((65 <=? c) && (c <=? 90))%N then (c + 32)%N else c.

Definition is_ascii (c : N) : bool := (c <? 128)%N.

(** [str(z)] for an [int]. *)
Definition str_of_int (z : Z) : str := u (NilZero.string_of_int (Z.to_int z)).

(** ['{:02d}'.format(z)]: decimal digits, zero-padded to a width of at least
    two, the sign counted in the width and written before the padding. *)
Definition format_02d (z : Z) : str :=
  let digits := str_of_int (Z.abs z) in
  if z <? 0 then u "-" ++ digits
  else if (length digits <? 2)%nat then u "0" ++ digits else digits.

(** [range(start, stop, -1)] *)
Definition range_down (start stop : Z) : list Z :=
  map (fun k => start - Z.of_nat k) (seq 0 (Z.to_nat (start - stop))).

(** [range(n)] *)
Definition range (n : Z) : list Z := map Z.of_nat (seq 0 (Z.to_nat n)).

(** [bool(l)] for a list or a string: non-empty. *)
Definition nonempty {A} (l : list A) : bool :=
  match l with [] => false | _ :: _ => true end.

End Py.
Import Py.

(** ** Python values, exceptions and subscripting *)

(** The objects the script handles: what [response.json()] decodes, what the
    secrets file and the session state hold. *)
Inductive pyval :=
| VNone
| VBool (b : bool)
| VInt (z : Z)
| VFloat (q : Q)
| VStr (s : str)
| VList (items : list pyval)
| VDict (d : gmap str pyval)
| VDatetime (t : Z).

(** Subclasses of [Exception] that the script can meet. *)
Inductive exn :=
| KeyError | IndexError | TypeError | AttributeError | ZeroDivisionError
| JSONDecodeError
| ConnectionError | Timeout | RequestException
| StreamlitSecretNotFoundError.

Inductive result (A : Type) :=
| Ok (a : A)
| Err (e : exn).
Arguments Ok {A} a.
Arguments Err {A} e.

(** [bool(v)], the test behind [if v:] and [not v]. *)
Definition truthy (v : pyval) : bool :=
  match v with
  | VNone => false
  | VBool b => b
  | VInt z => negb (z =? 0)
  | VFloat q => negb (Qeq_bool q 0)
  | VStr s => match s with [] => false | _ => true end
  | VList l => match l with [] => false | _ => true end
  | VDict d => negb (Nat.eqb (size d) 0)
  | VDatetime _ => true
  end.

(** [v[k]] with a string key. *)
Definition getitem_key (v : pyval) (k : str) : result pyval :=
  match v with
  | VDict d => match d !! k with Some x => Ok x | None => Err KeyError end
  | _ => Err TypeError
  end.

(** [v[i]] with an integer index; a negative index counts from the end. *)
Definition getitem_index (v : pyval) (i : Z) : result pyval :=
  let at_ {A} (l : list A) (wrap : A -> pyval) :=
    let j := if i <? 0 then i + Z.of_nat (length l) else i in
    if j <? 0 then Err IndexError
    else match l !! Z.to_nat j with
         | Some x => Ok (wrap x)
         | None => Err IndexError
         end in
  match v with
  | VList l => at_ l (fun x => x)
  | VStr s => at_ s (fun c => VStr [c])
  | VDict _ => Err KeyError
  | _ => Err TypeError
  end.

(** [v.split(sep)]: only a [str] has the method. *)
Definition method_split (v : pyval) (sep : N) : result (list str) :=
  match v with
  | VStr s => Ok (split s sep)
  | _ => Err AttributeError
  end.

(** [a / b] on [int]s. *)
Definition truediv (a b : Z) : result Q :=
  if b =? 0 then Err ZeroDivisionError else Ok (a # Z.to_pos b).

(** ** The world around the script *)

(** What [requests.post] is given. *)
Record request := {
  req_url : str;
  req_headers : pyval;
  req_params : pyval;
  req_json : pyval }.

(** What [requests.post] hands back: the status line and the outcome of
    [response.json()]. *)
Record response := {
  status_code : Z;
  response_json : result pyval }.

Inductive st_element :=
| set_page_config | markdown | error | header | subheader | success | info
| progress | spinner
| text_input | selectbox | radio | slider | multiselect | button.

(** Everything a run does that is visible from outside. *)
Inductive event :=
| ui (e : st_element) (arg : pyval)
| session_write (key : str) (v : pyval)
| http_post (r : request)
| time_sleep (seconds : Z).

(** One run of the script: the parsed secrets file ([None] when there is no
    secrets file to read), what the user has entered in each widget (by
    label), the transport (its answer may depend on what happened before)
    and the clock. *)
Record world := {
  secrets : option (gmap str pyval);
  st_text_input : str -> str;
  st_selectbox : str -> list str -> str;
  st_radio : str -> list str -> str;
  st_slider : str -> Z -> Z -> Z -> Z;
  st_multiselect : str -> list str -> list str;
  st_button : str -> bool;
  requests_post : list event -> request -> result response;
  datetime_now : Z }.

(** ** The script monad *)

Record state := {
  session_state : gmap str pyval;
  trace : list event }.

(** How a piece of script ends: normally, with an exception, or with the
    script stop of [st.stop()] (which is no [Exception]). *)
Inductive outcome (A : Type) :=
| Ret (a : A)
| Raise (e : exn)
| Halt.
Arguments Ret {A} a.
Arguments Raise {A} e.
Arguments Halt {A}.

Definition M (A : Type) : Type := state -> outcome A * state.

Definition ret {A} (a : A) : M A := fun s => (Ret a, s).

Definition bind {A B} (m : M A) (k : A -> M B) : M B :=
  fun s =>
    match m s with
    | (Ret a, s') => k a s'
    | (Raise e, s') => (Raise e, s')
    | (Halt, s') => (Halt, s')
    end.

Declare Scope script_scope.
Delimit Scope script_scope with script.
Notation "x <- m ;; k" := (bind m (fun x => k))
  (at level 100, m at next level, right associativity) : script_scope.
Notation "m ;; k" := (bind m (fun _ => k))
  (at level 100, right associativity) : script_scope.
Local Open Scope script_scope.

Definition lift {A} (r : result A) : M A :=
  fun s => match r with Ok a => (Ret a, s) | Err e => (Raise e, s) end.

(** [try: body / except Exception: handler] *)
Definition try_except {A} (body : M A) (handler : M A) : M A :=
  fun s =>
    match body s with
    | (Raise _, s') => handler s'
    | other => other
    end.

Definition when (b : bool) (m : M unit) : M unit := if b then m else ret tt.

Definition emit (e : event) : M unit :=
  fun s => (Ret tt, {| session_state := session_state s; trace := trace s ++ [e] |}).

Definition st_stop : M unit := fun s => (Halt, s).

(** [key in st.session_state] *)
Definition session_contains (key : str) : M bool :=
  fun s => (Ret (match session_state s !! key with Some _ => true | None => false end), s).

(** [st.session_state[key]] *)
Definition session_getitem (key : str) : M pyval :=
  fun s => match session_state s !! key with
           | Some v => (Ret v, s)
           | None => (Raise KeyError, s)
           end.

(** [st.session_state.get(key, default)] *)
Definition session_get (key : str) (fallback : pyval) : M pyval :=
  fun s => (Ret (default fallback (session_state s !! key)), s).

(** [st.session_state[key] = v] *)
Definition session_setitem (key : str) (v : pyval) : M unit :=
  fun s => (Ret tt, {| session_state := <[key := v]> (session_state s);
                       trace := trace s ++ [session_write key v] |}).

(** [for x in items: body], where [body] answers [true] for [break]. *)
Fixpoint for_each {A} (items : list A) (body : A -> M bool) : M unit :=
  match items with
  | [] => ret tt
  | x :: rest => stop <- body x ;; if stop then ret tt else for_each rest body
  end.

(** ** learningPath.py *)

Section Script.

Variable w : world.

(** [str.lower]; its Unicode tables are outside the repository. *)
Variable lower : str -> str.

(** *** 1. Gemini API integration helper *)

Definition sentinel : str :=
  [0x26A0; 0xFE0F]%N ++ u " Gemini API call failed or returned unexpected response.".

Definition gemini_request (prompt : str) (api_key : pyval) : request :=
  {| req_url := u "https://generativelanguage.googleapis.com/v1beta/models/gemini-pro:generateContent";
     req_headers := VDict {[ u "Content-Type" := VStr (u "application/json") ]};
     req_params := VDict {[ u "key" := api_key ]};
     req_json :=
       VDict {[ u "contents" :=
         VList [VDict {[ u "parts" := VList [VDict {[ u "text" := VStr prompt ]}] ]}] ]} |}.

(** [requests.post(url, headers=..., params=..., json=...)]: the request goes
    out, and the transport answers or raises. *)
Definition post (r : request) : M response :=
  fun s =>
    let s' := {| session_state := session_state s; trace := trace s ++ [http_post r] |} in
    match requests_post w (trace s) r with
    | Ok resp => (Ret resp, s')
    | Err e => (Raise e, s')
    end.

Definition call_gemini (prompt : str) (api_key : pyval) : M pyval :=
  response <- post (gemini_request prompt api_key) ;;
  try_except
    (body <- lift (response_json response) ;;
     candidates <- lift (getitem_key body (u "candidates")) ;;
     candidate <- lift (getitem_index candidates 0) ;;
     content <- lift (getitem_key candidate (u "content")) ;;
     parts <- lift (getitem_key content (u "parts")) ;;
     part <- lift (getitem_index parts 0) ;;
     lift (getitem_key part (u "text")))
    (ret (VStr sentinel)).

(** *** 2. Productivity / focus helper *)

Definition pomodoro_timer (duration : Z) : M unit :=
  session_setitem (u "timer_running") (VBool true) ;;
  for_each (range_down (duration * 60) 0) (fun i =>
    stop <- session_get (u "timer_stop") (VBool false) ;;
    if truthy stop then ret true
    else
      let mins := i / 60 in
      let secs := i mod 60 in
      let timeformat := format_02d mins ++ u ":" ++ format_02d secs in
      session_setitem (u "timer_display") (VStr timeformat) ;;
      emit (time_sleep 1) ;;
      ret false) ;;
  session_setitem (u "timer_running") (VBool false) ;;
  session_setitem (u "timer_display") (VStr (u "00:00")).

(** *** Streamlit calls *)

Definition st (e : st_element) (text : str) : M unit := emit (ui e (VStr text)).

(** A widget bound to a [key] keeps its value in the session state. *)
Definition keep (key : option str) (v : pyval) : M unit :=
  match key with
  | Some k => session_setitem k v
  | None => ret tt
  end.

Definition text_input_ (label : str) (key : option str) : M str :=
  st text_input label ;;
  let v := st_text_input w label in
  keep key (VStr v) ;; ret v.

Definition selectbox_ (label : str) (options : list str) : M str :=
  st selectbox label ;; ret (st_selectbox w label options).

Definition radio_ (label : str) (options : list str) : M str :=
  st radio label ;; ret (st_radio w label options).

Definition slider_ (label : str) (lo hi start : Z) : M Z :=
  st slider label ;; ret (st_slider w label lo hi start).

Definition multiselect_ (label : str) (options : list str) (key : option str)
  : M (list str) :=
  st multiselect label ;;
  let v := st_multiselect w label options in
  keep key (VList (map VStr v)) ;; ret v.

Definition button_ (label : str) : M bool :=
  st button label ;; ret (st_button w label).

(** *** 3. Streamlit app setup *)

Definition app_setup : M unit :=
  st set_page_config (u "AI Learning Path Generator") ;;
  st markdown (u "<h1 style='text-align: center; color: #4F8BF9;'>" ++ [0x1F393]%N ++
               u " AI Learning Path Generator (Gemini-powered)</h1>").

(** *** 4. Load Gemini API key securely *)

Definition key_diagnostic : str :=
  u "Gemini API key not set! Please add it to your .streamlit/secrets.toml file as GEMINI_API_KEY = "
  ++ [34]%N ++ u "xxx" ++ [34]%N.

(** [st.secrets.get(name, fallback)]: the fallback stands in for a name the
    file does not have; without a secrets file the access itself raises. *)
Definition secrets_get (name : str) (fallback : pyval) : result pyval :=
  match secrets w with
  | Some store => Ok (default fallback (store !! name))
  | None => Err StreamlitSecretNotFoundError
  end.

Definition load_api_key : M pyval :=
  api_key <- lift (secrets_get (u "GEMINI_API_KEY") (VStr [])) ;;
  when (negb (truthy api_key)) (st error key_diagnostic ;; st_stop) ;;
  ret api_key.

(** *** 5. User profile and input *)

Record profile := {
  topic : str;
  level : str;
  hours : Z;
  style : list str;
  goal : str }.

Definition topics : list str :=
  [u "Data Science"; u "UI/UX"; u "Web Development"; u "Cybersecurity";
   u "AI/Machine Learning"].

Definition levels : list str := [u "Beginner"; u "Intermediate"; u "Advanced"].

Definition styles : list str :=
  [u "Videos"; u "Articles"; u "Hands-on Projects"; u "Quizzes"; u "Flashcards"].

Definition sidebar (api_key : pyval) : M profile :=
  st header ([0x1F9D1; 0x200D; 0x1F393]%N ++ u " Your Profile") ;;
  username <- text_input_ (u "Name (optional)") (Some (u "username")) ;;
  topic <- selectbox_ (u "Choose a topic") topics ;;
  level <- radio_ (u "Current Skill Level") levels ;;
  hours <- slider_ (u "Study hours per week") 1 40 5 ;;
  style <- multiselect_ (u "Preferred learning style") styles None ;;
  goal <- text_input_ (u "Your main goal (optional)") None ;;
  st markdown (u "---") ;;
  st subheader (u "Anti-Distraction Tools") ;;
  has_focus <- session_contains (u "focus_mode") ;;
  when (negb has_focus) (session_setitem (u "focus_mode") (VBool false)) ;;
  toggle <- button_ ([0x1F512]%N ++ u " Toggle Focus Mode") ;;
  when toggle
    (focus <- session_getitem (u "focus_mode") ;;
     session_setitem (u "focus_mode") (VBool (negb (truthy focus)))) ;;
  focus <- session_getitem (u "focus_mode") ;;
  when (truthy focus)
    (st success (u "Focus Mode is ON: Hide distractions, silence notifications, and stay in this tab!")) ;;
  (* Pomodoro timer *)
  has_running <- session_contains (u "timer_running") ;;
  when (negb has_running) (session_setitem (u "timer_running") (VBool false)) ;;
  has_display <- session_contains (u "timer_display") ;;
  when (negb has_display) (session_setitem (u "timer_display") (VStr (u "25:00"))) ;;
  start <- button_ ([0x23F1; 0xFE0F]%N ++ u " Start Pomodoro (25m)") ;;
  when start
    (session_setitem (u "timer_stop") (VBool false) ;;
     st info (u "Pomodoro started. Stay focused!") ;;
     pomodoro_timer 25) ;;
  display <- session_getitem (u "timer_display") ;;
  (* the f-string, as its literal text and the object it interpolates *)
  emit (ui markdown (VList [VStr (u "**Timer:** "); display])) ;;
  running <- session_getitem (u "timer_running") ;;
  when (truthy running)
    (halt <- button_ ([0x1F6D1]%N ++ u " Stop Timer") ;;
     when halt (session_setitem (u "timer_stop") (VBool true))) ;;
  (* Motivational quote *)
  motivate <- button_ ([0x1F4A1]%N ++ u " Need Motivation?") ;;
  when motivate
    (let quote_prompt :=
       u "Give me a short motivational quote for students fighting digital distractions." in
     quote <- call_gemini quote_prompt api_key ;;
     emit (ui info quote)) ;;
  ret {| topic := topic; level := level; hours := hours; style := style; goal := goal |}.

(** *** 6. Learning path generation *)

Definition base_prompt (topic level : str) (hours : Z) (style : list str) (goal : str)
  : str :=
  u "You are an expert mentor. Create a detailed, step-by-step '" ++ topic ++
  u "' learning path for a " ++ level ++ u " learner " ++
  u "who can study " ++ str_of_int hours ++
  u " hrs/week. Preferred learning style(s): " ++
  (if nonempty style then join (u ", ") style else u "any") ++ u ". " ++
  u "Goal: " ++ (if nonempty goal then goal else u "Just to learn") ++ u "." ++ [10]%N ++
  u "For each step/module, provide: 1) Name, 2) What to learn, 3) Curated resources (with 1-2 links), " ++
  u "4) Creative project ideas, 5) A checkpoint quiz (3 questions), and 6) Estimated time in weeks." ++
  u "Finish with an overall project idea and a motivational message.".

Definition generate_learning_path (api_key : pyval) (p : profile) : M unit :=
  st markdown (u "## " ++ [0x1F680]%N ++ u " Generate Your Gemini-Powered Learning Path") ;;
  generate <- button_ (u "Generate Learning Path") ;;
  when generate
    (st spinner (u "Gemini is crafting your personalized learning path...") ;;
     plan <- call_gemini (base_prompt (topic p) (level p) (hours p) (style p) (goal p)) api_key ;;
     st markdown (u "### " ++ [0x1F3AF]%N ++ u " Your Personalized Learning Path") ;;
     emit (ui markdown plan) ;;
     session_setitem (u "learning_path") plan ;;
     session_setitem (u "path_generated_at") (VDatetime (datetime_now w))).

(** *** 7. Progress tracker and checkpoints *)

(** The condition of the list comprehension. *)
Definition is_module_line (line : str) : bool :=
  startswith (lower (strip line)) (u "step") ||
  startswith (lower (strip line)) (u "module").

Definition placeholder_modules : list str :=
  map (fun i => u "Module " ++ str_of_int (i + 1)) (range 5).

(** The module list, from the lines of the stored text. *)
Definition modules_of_lines (lines : list str) : list str :=
  let modules := List.filter is_module_line lines in
  if negb (nonempty modules) then placeholder_modules else modules.

Definition extract_modules (learning_path : str) : list str :=
  modules_of_lines (split learning_path 10).

(** [len(completed) / len(modules) if modules else 0] *)
Definition progress_of (completed modules : list str) : result Q :=
  if nonempty modules
  then truediv (Z.of_nat (length completed)) (Z.of_nat (length modules))
  else Ok 0%Q.

Definition congratulations : str :=
  u "Congratulations! You've completed this learning path! " ++ [0x1F389]%N.

(** From [st.multiselect] to the end of the section. *)
Definition checkpoints (modules : list str) : M unit :=
  completed <- multiselect_ (u "Completed modules") modules (Some (u "completed_modules")) ;;
  progress_value <- lift (progress_of completed modules) ;;
  emit (ui progress (VFloat progress_value)) ;;
  st markdown (u "**" ++ str_of_int (Z.of_nat (length completed)) ++ u " / " ++
               str_of_int (Z.of_nat (length modules)) ++ u " modules completed!**") ;;
  when (Qeq_bool progress_value 1) (st success congratulations).

Definition progress_tracker : M unit :=
  st markdown (u "## " ++ [0x1F4CA]%N ++ u " Progress & Checkpoints") ;;
  has_path <- session_contains (u "learning_path") ;;
  when has_path
    (st info (u "Track your modules below. Mark steps as complete to stay motivated!") ;;
     learning_path <- session_getitem (u "learning_path") ;;
     lines <- lift (method_split learning_path 10) ;;
     checkpoints (modules_of_lines lines)).

(** *** 8. AI buddy *)

Definition summary_prompt (question : str) : str :=
  u "Summarize the following resource and suggest quiz questions: " ++ question.

Definition explain_prompt (level topic question : str) : str :=
  u "Explain for a " ++ level ++ u " " ++ topic ++ u " student: " ++ question.

(** The prompt of the study buddy, if any: none while the box is empty. *)
Definition buddy_prompt (level topic question : str) : option str :=
  if nonempty question then
    Some (if startswith question (u "http") then summary_prompt question
          else explain_prompt level topic question)
  else None.

Definition study_buddy (api_key : pyval) (p : profile) : M unit :=
  st markdown (u "## " ++ [0x1F916]%N ++ u " AI Study Buddy (Ask Gemini)") ;;
  question <- text_input_
    (u "Ask me anything about your topic, or paste a resource link for a summary:") None ;;
  match buddy_prompt (level p) (topic p) question with
  | Some prompt =>
      st spinner (u "Gemini is thinking...") ;;
      answer <- call_gemini prompt api_key ;;
      emit (ui success answer)
  | None => ret tt
  end.

(** *** 9. Dynamic project generation *)

Definition project_prompt (level topic : str) : str :=
  u "Generate a creative, real-world project idea for a " ++ level ++ u " " ++ topic ++
  u " learner. " ++
  u "Outline the project, key features, and how it helps master the topic. Make it fun and challenging.".

Definition suggest_project (api_key : pyval) (p : profile) : M unit :=
  st markdown (u "## " ++ [0x1F4A1]%N ++ u " Suggest a Unique Project") ;;
  surprise <- button_ (u "Gemini: Surprise Me With a Project Idea!") ;;
  when surprise
    (project_idea <- call_gemini (project_prompt (level p) (topic p)) api_key ;;
     emit (ui markdown project_idea)).

(** *** 10. Adaptive quiz *)

Definition quiz_prompt (level topic : str) : str :=
  u "Create a 5-question adaptive quiz for a " ++ level ++ u " " ++ topic ++ u " learner. " ++
  u "Vary difficulty and include correct answers.".

Definition adaptive_quiz (api_key : pyval) (p : profile) : M unit :=
  st markdown (u "## " ++ [0x1F4DD]%N ++ u " On-the-Fly Quiz") ;;
  wanted <- button_ (u "Generate Adaptive Quiz") ;;
  when wanted
    (quiz <- call_gemini (quiz_prompt (level p) (topic p)) api_key ;;
     emit (ui markdown quiz)).

(** *** 11. Community, 12. Footer *)

Definition community_and_footer : M unit :=
  st markdown (u "## " ++ [0x1F91D]%N ++ u " Accountability & Community") ;;
  st info (u "Invite a friend to join your path, or share your progress on social media for extra motivation! (Feature coming soon)") ;;
  st markdown (u "---") ;;
  st markdown (u "<small>Made with " ++ [0x2764; 0xFE0F]%N ++
               u " using Streamlit & Gemini AI. Your journey to mastery starts now!</small>").

(** *** The page: one run of the script, top to bottom *)

Definition page (api_key : pyval) : M unit :=
  p <- sidebar api_key ;;
  generate_learning_path api_key p ;;
  progress_tracker ;;
  study_buddy api_key p ;;
  suggest_project api_key p ;;
  adaptive_quiz api_key p ;;
  community_and_footer.

Definition app : M unit :=
  app_setup ;;
  api_key <- load_api_key ;;
  page api_key.

End Script.

(** * Vocabulary of the properties *)

(** ** Prompts *)

(** The fixed text of the learning-path prompt before and after the two
    optional fields. *)
Definition prompt_opening (topic level : str) (hours : Z) : str :=
  u "You are an expert mentor. Create a detailed, step-by-step '" ++ topic ++
  u "' learning path for a " ++ level ++ u " learner who can study " ++
  str_of_int hours ++ u " hrs/week. Preferred learning style(s): ".

Definition prompt_closing : str :=
  u "." ++ [10]%N ++
  u "For each step/module, provide: 1) Name, 2) What to learn, 3) Curated resources (with 1-2 links), 4) Creative project ideas, 5) A checkpoint quiz (3 questions), and 6) Estimated time in weeks.Finish with an overall project idea and a motivational message.".

(** ** Responses *)

(** The extraction inside the [try], as a function of the response. *)
Definition extract_text (resp : response) : result pyval :=
  match response_json resp with
  | Err e => Err e
  | Ok body =>
    match getitem_key body (u "candidates") with
    | Err e => Err e
    | Ok candidates =>
      match getitem_index candidates 0 with
      | Err e => Err e
      | Ok candidate =>
        match getitem_key candidate (u "content") with
        | Err e => Err e
        | Ok content =>
          match getitem_key content (u "parts") with
          | Err e => Err e
          | Ok parts =>
            match getitem_index parts 0 with
            | Err e => Err e
            | Ok part => getitem_key part (u "text")
            end
          end
        end
      end
    end
  end.

(** The response envelope with one candidate and one part:
    [{"candidates":[{"content":{"parts":[{"text": t}]}}]}]. *)
Definition candidates_envelope (t : pyval) : pyval :=
  VDict {[ u "candidates" :=
    VList [VDict {[ u "content" :=
      VDict {[ u "parts" := VList [VDict {[ u "text" := t ]}] ]} ]}] ]}.

(** ** Traces *)

(** The state after the request has gone out. *)
Definition sent (r : request) (s : state) : state :=
  {| session_state := session_state s; trace := trace s ++ [http_post r] |}.

(** The events a piece of script adds to the trace. *)
Definition emitted {A} (m : M A) (s : state) : list event :=
  drop (length (trace s)) (trace (snd (m s))).

(** A run of the page from the session state [ss]. *)
Definition run (w : world) (lower : str -> str) (ss : gmap str pyval) : state :=
  snd (app w lower {| session_state := ss; trace := [] |}).

(** What has been drawn when the credential is looked up. *)
Definition setup_events : list event :=
  [ui set_page_config (VStr (u "AI Learning Path Generator"));
   ui markdown (VStr (u "<h1 style='text-align: center; color: #4F8BF9;'>" ++ [0x1F393]%N ++
                      u " AI Learning Path Generator (Gemini-powered)</h1>"))].

Definition is_http_post (e : event) : bool :=
  match e with http_post _ => true | _ => false end.

Definition is_widget (e : event) : bool :=
  match e with
  | ui (text_input | selectbox | radio | slider | multiselect | button) _ => true
  | _ => false
  end.

(** What a run writes to "timer_display", in order. *)
Definition timer_writes (t : list event) : list pyval :=
  flat_map (fun e =>
    match e with
    | session_write key v => if bool_decide (key = u "timer_display") then [v] else []
    | _ => []
    end) t.

(** ** The timer display *)

Definition is_digit (c : N) : bool := ((48 <=? c) && (c <=? 57))%N.

Definition two_digits (s : str) : bool :=
  match s with
  | [a; b] => is_digit a && is_digit b
  | _ => false
  end.

(** Two digits, a colon, two digits. *)
Definition is_mmss (s : str) : bool :=
  match s with
  | [m1; m2; colon; s1; s2] =>
      is_digit m1 && is_digit m2 && (colon =? 58)%N && is_digit s1 && is_digit s2
  | _ => false
  end.

Definition mmss_value (v : pyval) : Prop :=
  exists t, v = VStr t /\ is_mmss t = true.

(** An event respects the timer display unless it writes something else
    than an MM:SS string under that key. *)
Definition respects_timer (e : event) : Prop :=
  match e with
  | session_write key v => key = u "timer_display" -> mmss_value v
  | _ => True
  end.

(** The invariant on a session state: "timer_display", once set, holds an
    MM:SS string. *)
Definition timer_inv (ss : gmap str pyval) : Prop :=
  forall v, ss !! u "timer_display" = Some v -> mmss_value v.

Definition trace_respects_timer (s : state) : Prop := Forall respects_timer (trace s).

Definition state_respects_timer (s : state) : Prop := timer_inv (session_state s).

(** [P] survives the piece of script [m]. *)
Definition safe (P : state -> Prop) {A} (m : M A) : Prop :=
  forall s, P s -> P (snd (m s)).

(** ** Sample inputs *)

(** A world with a secrets file, in which nothing is typed and the first
    option of every choice is taken; the credential in the file (if any),
    the buttons pressed, the modules ticked and the outcome of every request
    are given. *)
Definition sample_world (key : option pyval) (pressed : str -> bool)
    (ticked : list str -> list str) (answer : result response) : world :=
  {| secrets :=
       Some (match key with Some k => {[ u "GEMINI_API_KEY" := k ]} | None => ∅ end);
     st_text_input := fun _ => [];
     st_selectbox := fun _ options => default [] (head options);
     st_radio := fun _ options => default [] (head options);
     st_slider := fun _ _ _ start => start;
     st_multiselect := fun label options =>
       if bool_decide (label = u "Completed modules") then ticked options else [];
     st_button := pressed;
     requests_post := fun _ _ => answer;
     datetime_now := 0 |}.

(** No credential in the secrets file, nothing pressed. *)
Definition quiet_world (answer : result response) : world :=
  sample_world None (fun _ => false) (fun _ => []) answer.

(** The credential is set and only "Start Pomodoro" is pressed. *)
Definition pomodoro_world : world :=
  sample_world (Some (VStr (u "k")))
    (fun label => bool_decide (label = [0x23F1; 0xFE0F]%N ++ u " Start Pomodoro (25m)"))
    (fun _ => []) (Err Timeout).

(** The credential is set and every module is ticked. *)
Definition all_ticked : world :=
  sample_world (Some (VStr (u "k"))) (fun _ => false) (fun options => options) (Err Timeout).

Definition fresh : state := {| session_state := ∅; trace := [] |}.

Definition hello_response : response :=
  {| status_code := 200; response_json := Ok (candidates_envelope (VStr (u "Hello"))) |}.

Definition sample_profile : profile :=
  {| topic := u "UI/UX"; level := u "Advanced"; hours := 40;
     style := [u "Videos"; u "Quizzes"]; goal := [] |}.

(** A learning path of five lines: two module markers and three other
    lines. *)
Definition sample_path : str :=
  join [10]%N
    [u "Here is your plan:";
     u "Step 1: Learn Python basics";
     u "Resources: docs.python.org";
     u "Module 2: Statistics";
     u "Good luck!"].

(** ** Conduct of a run *)

(** An event is allowed when its request or the key it writes is; drawing
    and sleeping always are. *)
Definition allowed (okpost : request -> Prop) (okkey : str -> Prop) (e : event) : Prop :=
  match e with
  | http_post r => okpost r
  | session_write key _ => okkey key
  | _ => True
  end.

(** The piece of script [m] keeps [I] and does not end in the script
    stop. *)
Definition conducts (I : state -> Prop) {A} (m : M A) : Prop :=
  forall s, I s -> I (snd (m s)) /\ fst (m s) <> Halt.

(** The keys of the session state that the page assigns, itself or through
    a widget bound to the key. *)
Definition page_keys : list str :=
  [u "username"; u "focus_mode"; u "timer_running"; u "timer_display"; u "timer_stop";
   u "learning_path"; u "path_generated_at"; u "completed_modules"].

(** The credential as the page reads it from the secrets file. *)
Definition credential (w : world) : pyval :=
  match secrets_get w (u "GEMINI_API_KEY") (VStr []) with
  | Ok api_key => api_key
  | Err _ => VStr []
  end.

(** The world [w] without any secrets file. *)
Definition without_secrets_file (w : world) : world :=
  {| secrets := None;
     st_text_input := st_text_input w;
     st_selectbox := st_selectbox w;
     st_radio := st_radio w;
     st_slider := st_slider w;
     st_multiselect := st_multiselect w;
     st_button := st_button w;
     requests_post := requests_post w;
     datetime_now := datetime_now w |}.

Definition is_sleep (e : event) : bool :=
  match e with time_sleep _ => true | _ => false end.

(** What one second of the countdown does. *)
Definition tick (i : Z) : list event :=
  [session_write (u "timer_display")
     (VStr (format_02d (i / 60) ++ u ":" ++ format_02d (i mod 60)));
   time_sleep 1].

(** Whether a stop of the timer has been requested. *)
Definition stop_requested (ss : gmap str pyval) : bool :=
  truthy (default (VBool false) (ss !! u "timer_stop")).

(** ** Vocabulary of the further properties *)

(** The sidebar from the timer on (the pomodoro block and the
    motivational quote), for the profile entered above it. *)
Definition sidebar_timer_and_quote (w : world) (api_key : pyval) (p : profile) : M profile :=
  has_running <- session_contains (u "timer_running") ;;
  when (negb has_running) (session_setitem (u "timer_running") (VBool false)) ;;
  has_display <- session_contains (u "timer_display") ;;
  when (negb has_display) (session_setitem (u "timer_display") (VStr (u "25:00"))) ;;
  start <- button_ w ([0x23F1; 0xFE0F]%N ++ u " Start Pomodoro (25m)") ;;
  when start
    (session_setitem (u "timer_stop") (VBool false) ;;
     st info (u "Pomodoro started. Stay focused!") ;;
     pomodoro_timer 25) ;;
  display <- session_getitem (u "timer_display") ;;
  emit (ui markdown (VList [VStr (u "**Timer:** "); display])) ;;
  running <- session_getitem (u "timer_running") ;;
  when (truthy running)
    (halt <- button_ w ([0x1F6D1]%N ++ u " Stop Timer") ;;
     when halt (session_setitem (u "timer_stop") (VBool true))) ;;
  motivate <- button_ w ([0x1F4A1]%N ++ u " Need Motivation?") ;;
  when motivate
    (let quote_prompt :=
       u "Give me a short motivational quote for students fighting digital distractions." in
     quote <- call_gemini w quote_prompt api_key ;;
     emit (ui info quote)) ;;
  ret p.

(** The profile a run reads from the widgets. *)
Definition entered_profile (w : world) : profile :=
  {| topic := st_selectbox w (u "Choose a topic") topics;
     level := st_radio w (u "Current Skill Level") levels;
     hours := st_slider w (u "Study hours per week") 1 40 5;
     style := st_multiselect w (u "Preferred learning style") styles;
     goal := st_text_input w (u "Your main goal (optional)") |}.

(** The focus flag as the sidebar finds it: off when it was never set. *)
Definition focus_before (ss : gmap str pyval) : pyval :=
  default (VBool false) (ss !! u "focus_mode").

(** The focus flag as the sidebar leaves it. *)
Definition focus_after (w : world) (ss : gmap str pyval) : pyval :=
  if st_button w ([0x1F512]%N ++ u " Toggle Focus Mode")
  then VBool (negb (truthy (focus_before ss)))
  else focus_before ss.

Definition two_candidates : response :=
  {| status_code := 200;
     response_json := Ok (VDict
       (<[ u "usageMetadata" := VDict ∅ ]>
        {[ u "candidates" :=
           VList [VDict (<[ u "finishReason" := VStr (u "STOP") ]>
                         {[ u "content" :=
                            VDict {[ u "parts" :=
                              VList [VDict {[ u "text" := VStr (u "first") ]};
                                     VDict {[ u "text" := VStr (u "second") ]}] ]} ]});
                  VDict {[ u "content" :=
                           VDict {[ u "parts" :=
                             VList [VDict {[ u "text" := VStr (u "other") ]}] ]} ]}] ]})) |}.

(** The body of the countdown loop. *)
Definition countdown_step (i : Z) : M bool :=
  stop <- session_get (u "timer_stop") (VBool false) ;;
  if truthy stop then ret true
  else
    let mins := i / 60 in
    let secs := i mod 60 in
    let timeformat := format_02d mins ++ u ":" ++ format_02d secs in
    session_setitem (u "timer_display") (VStr timeformat) ;;
    emit (time_sleep 1) ;;
    ret false.

(** The session state after the countdown has gone through [items]. *)
Definition counted_down (ss : gmap str pyval) (items : list Z) : gmap str pyval :=
  foldl (fun m i => <[ u "timer_display" :=
                       VStr (format_02d (i / 60) ++ u ":" ++ format_02d (i mod 60)) ]> m)
        ss items.

Definition stop_set : state :=
  {| session_state := {[ u "timer_stop" := VBool true ]}; trace := [] |}.

Definition only_posts (okpost : request -> Prop) (s : state) : Prop :=
  Forall (allowed okpost (fun _ => True)) (trace s).

(** What [call_gemini] returns once the transport has answered. *)
Definition completion (resp : response) : pyval :=
  match extract_text resp with Ok t => t | Err _ => VStr sentinel end.

Definition profile_prompt (p : profile) : str :=
  base_prompt (topic p) (level p) (hours p) (style p) (goal p).

(** The state in which the request of "Generate Learning Path" goes out. *)
Definition generating (s : state) : state :=
  {| session_state := session_state s;
     trace := trace s ++
       [ui markdown (VStr (u "## " ++ [0x1F680]%N ++ u " Generate Your Gemini-Powered Learning Path"));
        ui button (VStr (u "Generate Learning Path"));
        ui spinner (VStr (u "Gemini is crafting your personalized learning path..."))] |}.

(** A world in which only "Generate Learning Path" is pressed. *)
Definition generate_pressed (answer : result response) : world :=
  sample_world (Some (VStr (u "k")))
    (fun label => bool_decide (label = u "Generate Learning Path"))
    (fun _ => []) answer.

Definition tracker_header : event :=
  ui markdown (VStr (u "## " ++ [0x1F4CA]%N ++ u " Progress & Checkpoints")).

Definition tracker_info : event :=
  ui info (VStr (u "Track your modules below. Mark steps as complete to stay motivated!")).

Definition is_str (v : pyval) : bool :=
  match v with VStr _ => true | _ => false end.

(** A session in which the response's text was [null]. *)
Definition null_path : state :=
  {| session_state := {[ u "learning_path" := VNone ]}; trace := [] |}.

(** The state in which the tracker starts after a generation that stored
    [plan]. *)
Definition generated (w : world) (p : profile) (api_key plan : pyval) (s : state) : state :=
  {| session_state :=
       <[ u "path_generated_at" := VDatetime (datetime_now w) ]>
         (<[ u "learning_path" := plan ]> (session_state s));
     trace := trace (generating s) ++
       [http_post (gemini_request (profile_prompt p) api_key);
        ui markdown (VStr (u "### " ++ [0x1F3AF]%N ++ u " Your Personalized Learning Path"));
        ui markdown plan;
        session_write (u "learning_path") plan;
        session_write (u "path_generated_at") (VDatetime (datetime_now w))] |}.


Definition sleeps (t : list event) : nat := length (List.filter is_sleep t).

Definition buddy_label : str :=
  u "Ask me anything about your topic, or paste a resource link for a summary:".

(** The world [w] with a question typed into the study buddy's box. *)
Definition asking (w : world) (question : str) : world :=
  {| secrets := secrets w;
     st_text_input := fun label =>
       if bool_decide (label = buddy_label) then question else st_text_input w label;
     st_selectbox := st_selectbox w;
     st_radio := st_radio w;
     st_slider := st_slider w;
     st_multiselect := st_multiselect w;
     st_button := st_button w;
     requests_post := requests_post w;
     datetime_now := datetime_now w |}.

Definition empty_object : response :=
  {| status_code := 200; response_json := Ok (VDict ∅) |}.

Definition path_response : response :=
  {| status_code := 200; response_json := Ok (candidates_envelope (VStr sample_path)) |}.

(** * Properties *)

(** ** Strings *)

Lemma startswith_app (p s : str) : startswith (p ++ s) p = true.
Proof.
  induction p as [|c p IH]; [reflexivity|].
  simpl. now rewrite N.eqb_refl.
Qed.

Lemma startswith_prefix (s p : str) :
  startswith s p = true <-> exists rest, s = p ++ rest.
Proof.
  revert s. induction p as [|c p IH]; intros s; simpl.
  - split; [exists s; reflexivity | reflexivity].
  - destruct s as [|d s]; simpl.
    + split; [discriminate | intros [rest H]; discriminate].
    + rewrite andb_true_iff, N.eqb_eq, IH. split.
      * intros [-> [rest ->]]. now exists rest.
      * intros [rest H]. injection H as -> ->. split; [reflexivity | now exists rest].
Qed.

Lemma contains_startswith (s needle : str) :
  startswith s needle = true -> contains s needle = true.
Proof. intros H. destruct s; simpl; rewrite H; reflexivity. Qed.

(** [needle in s] finds the needle wherever it sits. *)
Lemma contains_infix (pre needle post : str) :
  contains (pre ++ needle ++ post) needle = true.
Proof.
  induction pre as [|c pre IH].
  - apply contains_startswith. exact (startswith_app needle post).
  - simpl app. simpl contains. rewrite IH. apply orb_true_r.
Qed.

Lemma contains_sound (s needle : str) :
  contains s needle = true -> exists pre post, s = pre ++ needle ++ post.
Proof.
  induction s as [|c s IH]; simpl; rewrite orb_true_iff.
  - intros [H|H]; [|discriminate].
    apply startswith_prefix in H as [rest ->]. now exists [], rest.
  - intros [H|H].
    + apply startswith_prefix in H as [rest ->]. now exists [], rest.
    + destruct (IH H) as (pre & post & ->). now exists (c :: pre), post.
Qed.

Lemma nonempty_true {A} (l : list A) : nonempty l = true <-> l <> [].
Proof. destruct l; simpl; split; congruence. Qed.

Lemma nonempty_false {A} (l : list A) : nonempty l = false <-> l = [].
Proof. destruct l; simpl; split; congruence. Qed.

(** ** Prompt builder *)

(** Whatever is interpolated, the three fields appear in the prompt. *)
Lemma base_prompt_mentions (topic level : str) (hours : Z) (style : list str) (goal : str) :
  let prompt := base_prompt topic level hours style goal in
  prompt <> [] /\
  contains prompt topic = true /\
  contains prompt level = true /\
  contains prompt (str_of_int hours) = true.
Proof.
  unfold base_prompt.
  set (a := u "You are an expert mentor. Create a detailed, step-by-step '").
  set (b := u "' learning path for a ").
  set (c := u " learner ").
  set (d := u "who can study ").
  repeat split.
  - subst a. discriminate.
  - apply contains_infix.
  - do 2 rewrite app_assoc. apply contains_infix.
  - do 5 rewrite app_assoc. apply contains_infix.
Qed.

(** C4. For every valid profile (topic and level among the offered values,
    hours between 1 and 40, any styles, any goal) the learning-path prompt is
    a non-empty string in which the topic, the level and the decimal form of
    the hours occur verbatim. *)
Theorem base_prompt_mentions_profile (p : profile) :
  topic p ∈ topics -> level p ∈ levels -> 1 <= hours p <= 40 ->
  let prompt := base_prompt (topic p) (level p) (hours p) (style p) (goal p) in
  prompt <> [] /\
  contains prompt (topic p) = true /\
  contains prompt (level p) = true /\
  contains prompt (str_of_int (hours p)) = true.
Proof. intros _ _ _. apply base_prompt_mentions. Qed.

Lemma base_prompt_mentions_profile_witness :
  let prompt := base_prompt (u "UI/UX") (u "Advanced") 40 [u "Videos"; u "Quizzes"] [] in
  prompt <> [] /\
  contains prompt (u "UI/UX") = true /\
  contains prompt (u "Advanced") = true /\
  contains prompt (u "40") = true.
Proof.
  apply (base_prompt_mentions_profile sample_profile).
  - unfold topics. simpl. set_solver.
  - unfold levels. simpl. set_solver.
  - simpl. lia.
Defined.

Lemma base_prompt_shape (topic level : str) (hours : Z) (style : list str) (goal : str) :
  base_prompt topic level hours style goal =
  prompt_opening topic level hours ++
  (if nonempty style then join (u ", ") style else u "any") ++
  u ". Goal: " ++
  (if nonempty goal then goal else u "Just to learn") ++
  prompt_closing.
Proof.
  unfold base_prompt, prompt_opening, prompt_closing.
  rewrite <- !app_assoc. reflexivity.
Qed.

(** C7. In the learning-path prompt an empty style selection is written as
    "any" and an empty goal as "Just to learn"; a non-empty selection is
    written as its items joined by ", " and a non-empty goal as it is. *)
Theorem base_prompt_optional_fields (topic level : str) (hours : Z) :
  forall (style : list str) (goal : str),
  exists style_text goal_text,
    base_prompt topic level hours style goal =
      prompt_opening topic level hours ++ style_text ++ u ". Goal: " ++
      goal_text ++ prompt_closing /\
    (style = [] -> style_text = u "any") /\
    (style <> [] -> style_text = join (u ", ") style) /\
    (goal = [] -> goal_text = u "Just to learn") /\
    (goal <> [] -> goal_text = goal).
Proof.
  intros style goal.
  exists (if nonempty style then join (u ", ") style else u "any"),
         (if nonempty goal then goal else u "Just to learn").
  split; [apply base_prompt_shape|].
  destruct style, goal; simpl; repeat split; congruence.
Qed.

Example base_prompt_defaults :
  base_prompt (u "UI/UX") (u "Beginner") 5 [] [] =
  prompt_opening (u "UI/UX") (u "Beginner") 5 ++ u "any. Goal: Just to learn" ++ prompt_closing.
Proof. reflexivity. Qed.

Example base_prompt_filled :
  base_prompt (u "UI/UX") (u "Beginner") 5 [u "Videos"; u "Quizzes"] (u "Get a job") =
  prompt_opening (u "UI/UX") (u "Beginner") 5 ++ u "Videos, Quizzes. Goal: Get a job" ++
  prompt_closing.
Proof. reflexivity. Qed.

(** The two templates of the study buddy never render the same text. *)
Lemma summary_is_not_explain (level topic question : str) :
  summary_prompt question <> explain_prompt level topic question.
Proof. unfold summary_prompt, explain_prompt. cbn. discriminate. Qed.

(** C3. The study buddy uses the resource-summary template exactly when the
    question starts with the four characters "http"; every other non-empty
    question gets the explanation (Q&A) template.  "http" alone is
    summarised, "How do I start?" is explained. *)
Theorem buddy_prompt_routing (level topic : str) :
  (forall question,
     buddy_prompt level topic question = Some (summary_prompt question) <->
     startswith question (u "http") = true) /\
  (forall question,
     question <> [] -> startswith question (u "http") = false ->
     buddy_prompt level topic question = Some (explain_prompt level topic question)) /\
  buddy_prompt level topic (u "http") = Some (summary_prompt (u "http")) /\
  buddy_prompt level topic (u "How do I start?") =
    Some (explain_prompt level topic (u "How do I start?")).
Proof.
  repeat split.
  - unfold buddy_prompt. destruct question as [|c q]; [discriminate|].
    simpl nonempty. cbv iota.
    destruct (startswith (c :: q) (u "http")); [reflexivity|].
    intros H. exfalso.
    apply (summary_is_not_explain level topic (c :: q)). congruence.
  - intros H. unfold buddy_prompt. rewrite H.
    destruct question; [discriminate | reflexivity].
  - intros question Hne Hs. unfold buddy_prompt. rewrite Hs.
    destruct question; [congruence | reflexivity].
Qed.

(** ** Completion client *)

(** Once the transport has answered, [call_gemini] returns: the text when
    the extraction finds it, the sentinel when anything in it raises. *)
Lemma call_gemini_answered (w : world) (prompt : str) (api_key : pyval) (s : state)
    (resp : response) :
  requests_post w (trace s) (gemini_request prompt api_key) = Ok resp ->
  call_gemini w prompt api_key s =
    (Ret (match extract_text resp with Ok t => t | Err _ => VStr sentinel end),
     sent (gemini_request prompt api_key) s).
Proof.
  intros H. unfold call_gemini, bind at 1, post. rewrite H.
  unfold try_except, extract_text, bind, lift, ret, sent.
  destruct (response_json resp) as [body|]; [|reflexivity].
  destruct (getitem_key body _) as [candidates|]; [|reflexivity].
  destruct (getitem_index candidates 0) as [candidate|]; [|reflexivity].
  destruct (getitem_key candidate _) as [content|]; [|reflexivity].
  destruct (getitem_key content _) as [parts|]; [|reflexivity].
  destruct (getitem_index parts 0) as [part|]; [|reflexivity].
  destruct (getitem_key part _); reflexivity.
Qed.

(** When the transport raises, so does [call_gemini]: the [requests.post]
    call stands before the [try]. *)
Lemma call_gemini_unanswered (w : world) (prompt : str) (api_key : pyval) (s : state)
    (e : exn) :
  requests_post w (trace s) (gemini_request prompt api_key) = Err e ->
  call_gemini w prompt api_key s = (Raise e, sent (gemini_request prompt api_key) s).
Proof.
  intros H. unfold call_gemini, bind, post. rewrite H. reflexivity.
Qed.

Lemma extract_text_envelope (status : Z) (t : pyval) :
  extract_text {| status_code := status; response_json := Ok (candidates_envelope t) |} = Ok t.
Proof.
  unfold extract_text, candidates_envelope, getitem_key, getitem_index. simpl.
  repeat (rewrite lookup_singleton_eq; simpl). reflexivity.
Qed.

(** C2. When the response body is
    [{"candidates":[{"content":{"parts":[{"text": t}]}}]}], [call_gemini]
    returns exactly [t], the first part of the first candidate. *)
Theorem call_gemini_returns_text (w : world) (prompt : str) (api_key : pyval)
    (s : state) (resp : response) (t : pyval) :
  requests_post w (trace s) (gemini_request prompt api_key) = Ok resp ->
  response_json resp = Ok (candidates_envelope t) ->
  fst (call_gemini w prompt api_key s) = Ret t.
Proof.
  intros Hpost Hbody. rewrite (call_gemini_answered _ _ _ _ _ Hpost). simpl.
  destruct resp as [status body]. simpl in Hbody. subst body.
  now rewrite extract_text_envelope.
Qed.

(** The body of the specification's example gives "Hello", which is not the
    sentinel. *)
Lemma call_gemini_returns_text_witness :
  fst (call_gemini (quiet_world (Ok hello_response)) (u "Say hello") (VStr (u "k")) fresh)
    = Ret (VStr (u "Hello")) /\
  u "Hello" <> sentinel.
Proof.
  split.
  - apply (call_gemini_returns_text _ _ _ _ hello_response); reflexivity.
  - discriminate.
Defined.

(** C1, at the input where the code departs from it: the transport raises
    [ConnectionError] while the request is issued, and the exception leaves
    [call_gemini]; the sentinel is not returned. *)
Theorem call_gemini_network_error_escapes :
  fst (call_gemini (quiet_world (Err ConnectionError)) (u "Say hello") (VStr (u "k")) fresh)
    = Raise ConnectionError.
Proof. reflexivity. Qed.

(** What does hold of the failures: with any answer from the transport,
    whatever its status, a body that is not JSON, an empty object, an empty
    candidate list or any body in which a subscript fails gives the
    sentinel, and nothing is raised. *)
Lemma call_gemini_normalises (w : world) (prompt : str) (api_key : pyval) (s : state)
    (resp : response) :
  requests_post w (trace s) (gemini_request prompt api_key) = Ok resp ->
  (forall e, extract_text resp = Err e ->
     fst (call_gemini w prompt api_key s) = Ret (VStr sentinel)) /\
  (forall e, fst (call_gemini w prompt api_key s) <> Raise e) /\
  fst (call_gemini w prompt api_key s) <> Halt.
Proof.
  intros H. rewrite (call_gemini_answered _ _ _ _ _ H). simpl.
  repeat split; try discriminate.
  intros e ->. reflexivity.
Qed.

Example extract_text_not_json (status : Z) :
  extract_text {| status_code := status; response_json := Err JSONDecodeError |}
    = Err JSONDecodeError.
Proof. reflexivity. Qed.

Example extract_text_empty_object (status : Z) :
  extract_text {| status_code := status; response_json := Ok (VDict ∅) |} = Err KeyError.
Proof. reflexivity. Qed.

Example extract_text_no_candidates (status : Z) :
  extract_text {| status_code := status;
                  response_json := Ok (VDict {[ u "candidates" := VList [] ]}) |}
    = Err IndexError.
Proof.
  unfold extract_text, getitem_key. simpl. rewrite lookup_singleton_eq. reflexivity.
Qed.

Example extract_text_not_an_object (status : Z) :
  extract_text {| status_code := status; response_json := Ok (VList []) |} = Err TypeError.
Proof. reflexivity. Qed.

(** The status line is never read: a reply marked 500 that carries the
    envelope is returned like any other. *)
Example call_gemini_ignores_status :
  fst (call_gemini
         (quiet_world (Ok {| status_code := 500;
                             response_json := Ok (candidates_envelope (VStr (u "Hello"))) |}))
         (u "Say hello") (VStr (u "k")) fresh)
    = Ret (VStr (u "Hello")).
Proof.
  erewrite call_gemini_answered by reflexivity. simpl.
  now rewrite extract_text_envelope.
Qed.

(** ** Credential check *)

(** A run without a secrets file: reading the credential raises, before
    the diagnostic and the stop are reached. *)
Lemma app_without_secrets (w : world) (lower : str -> str) (s : state) :
  secrets w = None ->
  app w lower s =
    (Raise StreamlitSecretNotFoundError,
     {| session_state := session_state s; trace := trace s ++ setup_events |}).
Proof.
  intros H. unfold app, app_setup, load_api_key, bind, st, emit, lift, secrets_get.
  rewrite H. simpl. rewrite <- !app_assoc. reflexivity.
Qed.

(** A run with a secrets file and a falsy credential: the diagnostic, then
    the stop. *)
Lemma app_without_key (w : world) (lower : str -> str) (s : state) :
  secrets w <> None ->
  truthy (credential w) = false ->
  app w lower s =
    (Halt, {| session_state := session_state s;
              trace := trace s ++ setup_events ++ [ui error (VStr key_diagnostic)] |}).
Proof.
  intros Hfile H. unfold credential in H.
  unfold app, app_setup, load_api_key, bind, st, emit, lift, when.
  unfold secrets_get in *. destruct (secrets w) as [store|]; [|congruence].
  rewrite H. simpl. rewrite <- !app_assoc. reflexivity.
Qed.

(** A run with a credential goes on to the page. *)
Lemma app_with_key (w : world) (lower : str -> str) (s : state) :
  truthy (credential w) = true ->
  app w lower s =
    page w lower (credential w)
      {| session_state := session_state s; trace := trace s ++ setup_events |}.
Proof.
  intros H. unfold credential in *.
  unfold app, app_setup, load_api_key, bind at 1 2 3 4 5, st, emit, lift, when.
  unfold secrets_get in *. destruct (secrets w) as [store|]; [|discriminate H].
  rewrite H. simpl. rewrite <- !app_assoc. reflexivity.
Qed.

(** With a secrets file that has no GEMINI_API_KEY, or an empty one, the
    run draws the page title, shows the diagnostic that says where to put
    the key, and stops there: the session state is untouched, no widget is
    drawn and no request is sent. *)
Lemma missing_key_halts (w : world) (lower : str -> str) (s : state)
    (store : gmap str pyval) :
  secrets w = Some store ->
  store !! u "GEMINI_API_KEY" = None \/
  store !! u "GEMINI_API_KEY" = Some (VStr []) ->
  exists s',
    app w lower s = (Halt, s') /\
    session_state s' = session_state s /\
    trace s' = trace s ++ setup_events ++ [ui error (VStr key_diagnostic)] /\
    contains key_diagnostic (u ".streamlit/secrets.toml") = true /\
    forallb (fun e => negb (is_http_post e) && negb (is_widget e))
            (setup_events ++ [ui error (VStr key_diagnostic)]) = true.
Proof.
  intros Hfile H. eexists. split.
  - apply app_without_key; [congruence|].
    unfold credential, secrets_get. rewrite Hfile.
    destruct H as [-> | ->]; reflexivity.
  - simpl. repeat split; reflexivity.
Qed.

Example missing_key_halts_in_a_quiet_world :
  exists s',
    app (quiet_world (Err Timeout)) (map ascii_lower) fresh = (Halt, s') /\
    session_state s' = ∅ /\
    trace s' = [] ++ setup_events ++ [ui error (VStr key_diagnostic)] /\
    contains key_diagnostic (u ".streamlit/secrets.toml") = true /\
    forallb (fun e => negb (is_http_post e) && negb (is_widget e))
            (setup_events ++ [ui error (VStr key_diagnostic)]) = true.
Proof.
  apply (missing_key_halts (quiet_world (Err Timeout)) (map ascii_lower) fresh ∅).
  - reflexivity.
  - left. reflexivity.
Qed.

(** C8, at the input where the code departs from it: there is no secrets
    file at all, so the credential is absent, and [st.secrets.get] raises at
    the lookup; the run ends in that exception after the page title, and
    neither the diagnostic nor the script stop is reached. *)
Theorem missing_secrets_file_raises :
  app (without_secrets_file (quiet_world (Err Timeout))) (map ascii_lower) fresh =
    (Raise StreamlitSecretNotFoundError,
     {| session_state := ∅; trace := setup_events |}).
Proof. reflexivity. Qed.

(** ** Timer display *)

Lemma in_range_down (start stop x : Z) :
  In x (range_down start stop) <-> stop < x <= start.
Proof.
  unfold range_down. rewrite in_map_iff. split.
  - intros (k & <- & Hk). apply in_seq in Hk. lia.
  - intros H. exists (Z.to_nat (start - x)). split; [lia|].
    apply in_seq. lia.
Qed.

Lemma format_02d_two_digits (z : Z) : 0 <= z <= 99 -> two_digits (format_02d z) = true.
Proof.
  intros H.
  assert (All : forallb (fun k => two_digits (format_02d (Z.of_nat k))) (seq 0 100) = true)
    by (vm_compute; reflexivity).
  rewrite forallb_forall in All.
  specialize (All (Z.to_nat z)). rewrite Z2Nat.id in All by lia.
  apply All, in_seq. lia.
Qed.

Lemma two_digits_mmss (a b : str) :
  two_digits a = true -> two_digits b = true -> is_mmss (a ++ u ":" ++ b) = true.
Proof.
  destruct a as [|a1 [|a2 [|]]]; try discriminate.
  destruct b as [|b1 [|b2 [|]]]; try discriminate.
  simpl. rewrite !andb_true_iff. tauto.
Qed.

(** The string the countdown writes at second [i], for a timer of at most
    99 minutes. *)
Lemma countdown_format_mmss (duration i : Z) :
  duration <= 99 -> 0 < i <= duration * 60 ->
  is_mmss (format_02d (i / 60) ++ u ":" ++ format_02d (i mod 60)) = true.
Proof.
  intros Hd Hi.
  assert (0 <= i / 60 <= 99).
  { split; [apply Z.div_pos; lia|].
    apply Z.lt_succ_r, Z.div_lt_upper_bound; lia. }
  assert (0 <= i mod 60 < 60) by (apply Z.mod_pos_bound; lia).
  apply two_digits_mmss; apply format_02d_two_digits; lia.
Qed.

(** With a hundred minutes the first string is one character too long. *)
Example countdown_format_100 :
  format_02d (6000 / 60) ++ u ":" ++ format_02d (6000 mod 60) = u "100:00".
Proof. reflexivity. Qed.

(** *** Preservation along the script

    [P] is a property of states that survives every event respecting the
    timer display; such a property then survives every piece of the
    script. *)

Section Preservation.

Variable P : state -> Prop.

Hypothesis P_event : forall s e,
  respects_timer e -> P s ->
  P {| session_state := session_state s; trace := trace s ++ [e] |}.

Hypothesis P_write : forall s key v,
  respects_timer (session_write key v) -> P s ->
  P {| session_state := <[key := v]> (session_state s);
       trace := trace s ++ [session_write key v] |}.

Lemma safe_ret {A} (a : A) : safe P (ret a).
Proof. intros s H. exact H. Qed.

Lemma safe_bind {A B} (m : M A) (k : A -> M B) :
  safe P m -> (forall a, safe P (k a)) -> safe P (bind m k).
Proof.
  intros Hm Hk s H. unfold bind. specialize (Hm s H).
  destruct (m s) as [[a| |] s']; simpl in *; [apply Hk| |]; assumption.
Qed.

Lemma safe_lift {A} (r : result A) : safe P (lift r).
Proof. intros s H. unfold lift. destruct r; exact H. Qed.

Lemma safe_try_except {A} (body handler : M A) :
  safe P body -> safe P handler -> safe P (try_except body handler).
Proof.
  intros Hb Hh s H. unfold try_except. specialize (Hb s H).
  destruct (body s) as [[a| |] s']; simpl in *; [|apply Hh|]; assumption.
Qed.

Lemma safe_when (b : bool) (m : M unit) : safe P m -> safe P (when b m).
Proof. intros Hm. destruct b; [exact Hm | apply safe_ret]. Qed.

Lemma safe_emit (e : event) : respects_timer e -> safe P (emit e).
Proof. intros He s H. apply P_event; assumption. Qed.

Lemma safe_st (e : st_element) (text : str) : safe P (st e text).
Proof. apply safe_emit. exact I. Qed.

Lemma safe_st_stop : safe P st_stop.
Proof. intros s H. exact H. Qed.

Lemma safe_session_contains (key : str) : safe P (session_contains key).
Proof. intros s H. exact H. Qed.

Lemma safe_session_getitem (key : str) : safe P (session_getitem key).
Proof. intros s H. unfold session_getitem. destruct (_ !! _); exact H. Qed.

Lemma safe_session_get (key : str) (fallback : pyval) : safe P (session_get key fallback).
Proof. intros s H. exact H. Qed.

Lemma safe_session_setitem (key : str) (v : pyval) :
  respects_timer (session_write key v) -> safe P (session_setitem key v).
Proof. intros Hw s H. apply P_write; assumption. Qed.

Lemma safe_for_each {A} (items : list A) (body : A -> M bool) :
  (forall x, In x items -> safe P (body x)) -> safe P (for_each items body).
Proof.
  induction items as [|x items IH]; intros Hbody; simpl.
  - apply safe_ret.
  - apply safe_bind; [apply Hbody; now left|].
    intros [|]; [apply safe_ret|]. apply IH. intros y Hy. apply Hbody. now right.
Qed.

Lemma safe_post (w : world) (r : request) : safe P (post w r).
Proof.
  intros s H. unfold post.
  destruct (requests_post w (trace s) r); simpl; apply P_event; [exact I | | exact I |];
    assumption.
Qed.

(** A write under another key than "timer_display", or of an MM:SS literal
    under it, respects the timer. *)
Ltac respects :=
  simpl;
  let H := fresh in
  intros H;
  first [ exfalso; vm_compute in H; discriminate H
        | eexists; split; [reflexivity | vm_compute; reflexivity] ].

Ltac safe_step :=
  lazymatch goal with
  | |- safe _ (bind _ _) => apply safe_bind; [|intros ?]
  | |- safe _ (when _ _) => apply safe_when
  | |- safe _ (ret _) => apply safe_ret
  | |- safe _ (lift _) => apply safe_lift
  | |- safe _ (st _ _) => apply safe_st
  | |- safe _ (emit _) => apply safe_emit; exact I
  | |- safe _ st_stop => apply safe_st_stop
  | |- safe _ (session_contains _) => apply safe_session_contains
  | |- safe _ (session_getitem _) => apply safe_session_getitem
  | |- safe _ (session_get _ _) => apply safe_session_get
  | |- safe _ (session_setitem _ _) => apply safe_session_setitem; respects
  | |- safe _ (post _ _) => apply safe_post
  | |- safe _ (try_except _ _) => apply safe_try_except
  end.

Variable w : world.
Variable lower : str -> str.

Lemma safe_call_gemini (prompt : str) (api_key : pyval) :
  safe P (call_gemini w prompt api_key).
Proof. unfold call_gemini. repeat safe_step. Qed.

Lemma safe_text_input (label : str) (key : option str) :
  key <> Some (u "timer_display") -> safe P (text_input_ w label key).
Proof.
  intros Hk. unfold text_input_, keep. repeat safe_step.
  destruct key as [k|]; [|apply safe_ret].
  apply safe_session_setitem. simpl. congruence.
Qed.

Lemma safe_selectbox (label : str) (options : list str) : safe P (selectbox_ w label options).
Proof. unfold selectbox_. repeat safe_step. Qed.

Lemma safe_radio (label : str) (options : list str) : safe P (radio_ w label options).
Proof. unfold radio_. repeat safe_step. Qed.

Lemma safe_slider (label : str) (lo hi start : Z) : safe P (slider_ w label lo hi start).
Proof. unfold slider_. repeat safe_step. Qed.

Lemma safe_multiselect (label : str) (options : list str) (key : option str) :
  key <> Some (u "timer_display") -> safe P (multiselect_ w label options key).
Proof.
  intros Hk. unfold multiselect_, keep. repeat safe_step.
  destruct key as [k|]; [|apply safe_ret].
  apply safe_session_setitem. simpl. congruence.
Qed.

Lemma safe_button (label : str) : safe P (button_ w label).
Proof. unfold button_. repeat safe_step. Qed.

(** Every write of the countdown is an MM:SS string, for a timer of at most
    99 minutes. *)
Lemma safe_pomodoro_timer (duration : Z) : duration <= 99 -> safe P (pomodoro_timer duration).
Proof.
  intros Hd. unfold pomodoro_timer. repeat safe_step.
  apply safe_for_each. intros i Hi. apply in_range_down in Hi.
  repeat safe_step. destruct (truthy _); repeat safe_step.
  apply safe_session_setitem. simpl. intros _.
  eexists. split; [reflexivity|]. apply (countdown_format_mmss duration); lia.
Qed.

Ltac safe_widget :=
  first [ apply safe_text_input; discriminate
        | apply safe_multiselect; discriminate
        | apply safe_selectbox | apply safe_radio | apply safe_slider
        | apply safe_button | apply safe_call_gemini ].

Lemma safe_sidebar (api_key : pyval) : safe P (sidebar w api_key).
Proof.
  unfold sidebar. repeat first [safe_step | safe_widget].
  apply safe_pomodoro_timer. lia.
Qed.

Lemma safe_generate_learning_path (api_key : pyval) (p : profile) :
  safe P (generate_learning_path w api_key p).
Proof. unfold generate_learning_path. repeat first [safe_step | safe_widget]. Qed.

Lemma safe_progress_tracker : safe P (progress_tracker w lower).
Proof.
  unfold progress_tracker, checkpoints. repeat first [safe_step | safe_widget].
Qed.

Lemma safe_study_buddy (api_key : pyval) (p : profile) : safe P (study_buddy w api_key p).
Proof.
  unfold study_buddy. repeat first [safe_step | safe_widget].
  destruct (buddy_prompt _ _ _); repeat first [safe_step | safe_widget].
Qed.

Lemma safe_suggest_project (api_key : pyval) (p : profile) :
  safe P (suggest_project w api_key p).
Proof. unfold suggest_project. repeat first [safe_step | safe_widget]. Qed.

Lemma safe_adaptive_quiz (api_key : pyval) (p : profile) : safe P (adaptive_quiz w api_key p).
Proof. unfold adaptive_quiz. repeat first [safe_step | safe_widget]. Qed.

Lemma safe_app : safe P (app w lower).
Proof.
  unfold app, app_setup, load_api_key, page, community_and_footer.
  repeat first
    [ safe_step
    | apply safe_sidebar | apply safe_generate_learning_path
    | apply safe_progress_tracker | apply safe_study_buddy
    | apply safe_suggest_project | apply safe_adaptive_quiz ].
Qed.

End Preservation.

(** The two instances: the events of a run, and the session state. *)

Lemma trace_respects_event (s : state) (e : event) :
  respects_timer e -> trace_respects_timer s ->
  trace_respects_timer {| session_state := session_state s; trace := trace s ++ [e] |}.
Proof.
  unfold trace_respects_timer. simpl. intros He H.
  apply Forall_app. split; [exact H | now constructor].
Qed.

Lemma trace_respects_write (s : state) (key : str) (v : pyval) :
  respects_timer (session_write key v) -> trace_respects_timer s ->
  trace_respects_timer {| session_state := <[key := v]> (session_state s);
                          trace := trace s ++ [session_write key v] |}.
Proof.
  unfold trace_respects_timer. simpl. intros He H.
  apply Forall_app. split; [exact H | now constructor].
Qed.

Lemma state_respects_event (s : state) (e : event) :
  respects_timer e -> state_respects_timer s ->
  state_respects_timer {| session_state := session_state s; trace := trace s ++ [e] |}.
Proof. intros _ H. exact H. Qed.

Lemma state_respects_write (s : state) (key : str) (v : pyval) :
  respects_timer (session_write key v) -> state_respects_timer s ->
  state_respects_timer {| session_state := <[key := v]> (session_state s);
                          trace := trace s ++ [session_write key v] |}.
Proof.
  unfold state_respects_timer, timer_inv. simpl. intros Hw H x.
  destruct (decide (key = u "timer_display")) as [->|Hne].
  - rewrite lookup_insert_eq. intros [= <-]. now apply Hw.
  - rewrite lookup_insert_ne by exact Hne. apply H.
Qed.

(** C9. In every run of the page, each write to "timer_display" (the
    initialisation, every update inside the countdown of [pomodoro_timer]
    and the final reset) stores an MM:SS string, and a session state whose
    "timer_display" is an MM:SS string keeps one.  The countdown itself
    respects this for every duration up to 99 minutes; the page starts it
    with 25. *)
Theorem timer_display_always_mmss (w : world) (lower : str -> str)
    (ss : gmap str pyval) :
  Forall respects_timer (trace (run w lower ss)) /\
  (timer_inv ss -> timer_inv (session_state (run w lower ss))) /\
  (forall duration s, duration <= 99 ->
     (trace_respects_timer s -> trace_respects_timer (snd (pomodoro_timer duration s))) /\
     (state_respects_timer s -> state_respects_timer (snd (pomodoro_timer duration s)))) /\
  is_mmss (u "25:00") = true /\ is_mmss (u "00:00") = true.
Proof.
  split; [|split; [|split; [|split; reflexivity]]].
  - apply (safe_app _ trace_respects_event trace_respects_write w lower).
    constructor.
  - intros H.
    now apply (safe_app _ state_respects_event state_respects_write w lower).
  - intros duration s Hd. split.
    + now apply (safe_pomodoro_timer _ trace_respects_event trace_respects_write).
    + now apply (safe_pomodoro_timer _ state_respects_event state_respects_write).
Qed.

Lemma timer_display_always_mmss_witness :
  Forall respects_timer (trace (run pomodoro_world (map ascii_lower) ∅)) /\
  timer_inv (session_state (run pomodoro_world (map ascii_lower) ∅)).
Proof.
  destruct (timer_display_always_mmss pomodoro_world (map ascii_lower) ∅) as (Ht & Hs & _).
  split; [exact Ht | apply Hs].
  intros v H. rewrite lookup_empty in H. discriminate H.
Defined.

(** From a fresh session that run writes the initial "25:00", then one
    string per second from "25:00" down to "00:01", then "00:00". *)
Example timer_writes_of_a_pomodoro :
  timer_writes (trace (run pomodoro_world (map ascii_lower) ∅)) =
  [VStr (u "25:00")] ++
  map (fun i => VStr (format_02d (i / 60) ++ u ":" ++ format_02d (i mod 60)))
      (range_down 1500 0) ++
  [VStr (u "00:00")].
Proof. vm_compute. reflexivity. Qed.

(** ** Progress tracker *)

Lemma placeholder_modules_are :
  placeholder_modules =
  [u "Module 1"; u "Module 2"; u "Module 3"; u "Module 4"; u "Module 5"].
Proof. reflexivity. Qed.

(** The module list is the kept lines, or the placeholders when none is
    kept. *)
Lemma modules_of_lines_cases (lower : str -> str) (lines : list str) :
  let kept := List.filter (is_module_line lower) lines in
  (kept <> [] -> modules_of_lines lower lines = kept) /\
  (kept = [] -> modules_of_lines lower lines = placeholder_modules).
Proof.
  unfold modules_of_lines.
  destruct (List.filter (is_module_line lower) lines); simpl; split; congruence.
Qed.

Lemma modules_of_lines_nonempty (lower : str -> str) (lines : list str) :
  modules_of_lines lower lines <> [].
Proof.
  unfold modules_of_lines.
  destruct (List.filter (is_module_line lower) lines); simpl; discriminate.
Qed.

(** On a line that is ASCII once trimmed, the test is the ASCII one. *)
Lemma is_module_line_ascii (lower : str -> str) (line : str) :
  (forall s, forallb is_ascii s = true -> lower s = map ascii_lower s) ->
  forallb is_ascii (strip line) = true ->
  is_module_line lower line =
    startswith (map ascii_lower (strip line)) (u "step") ||
    startswith (map ascii_lower (strip line)) (u "module").
Proof. intros Hlower Hline. unfold is_module_line. now rewrite Hlower. Qed.

(** C5. The module list is made of exactly the lines of the stored text
    whose trimmed, lowercased form starts with "step" or "module", in their
    order and as they stand; when there is no such line it is the five
    placeholders "Module 1" to "Module 5".  A text with a "Step 1" line, a
    "Module 2" line and three other lines gives two modules. *)
Theorem extract_modules_keeps_marker_lines (lower : str -> str) :
  (forall s, forallb is_ascii s = true -> lower s = map ascii_lower s) ->
  (forall text,
     let kept :=
       List.filter
         (fun line => startswith (lower (strip line)) (u "step") ||
                      startswith (lower (strip line)) (u "module"))
         (split text 10) in
     (kept <> [] -> extract_modules lower text = kept) /\
     (kept = [] ->
      extract_modules lower text =
      [u "Module 1"; u "Module 2"; u "Module 3"; u "Module 4"; u "Module 5"])) /\
  extract_modules lower sample_path =
    [u "Step 1: Learn Python basics"; u "Module 2: Statistics"] /\
  length (extract_modules lower sample_path) = 2%nat /\
  extract_modules lower (u "Welcome!") =
    [u "Module 1"; u "Module 2"; u "Module 3"; u "Module 4"; u "Module 5"].
Proof.
  intros Hlower.
  assert (Hsample : extract_modules lower sample_path =
                    [u "Step 1: Learn Python basics"; u "Module 2: Statistics"]).
  { unfold extract_modules, modules_of_lines.
    replace (split sample_path 10) with
      [u "Here is your plan:"; u "Step 1: Learn Python basics";
       u "Resources: docs.python.org"; u "Module 2: Statistics"; u "Good luck!"]
      by (vm_compute; reflexivity).
    unfold List.filter.
    rewrite !(is_module_line_ascii lower _ Hlower) by (vm_compute; reflexivity).
    vm_compute. reflexivity. }
  split; [|split; [exact Hsample | split]].
  - intros text. apply (modules_of_lines_cases lower (split text 10)).
  - now rewrite Hsample.
  - unfold extract_modules, modules_of_lines.
    replace (split (u "Welcome!") 10) with [u "Welcome!"] by (vm_compute; reflexivity).
    unfold List.filter.
    rewrite !(is_module_line_ascii lower _ Hlower) by (vm_compute; reflexivity).
    vm_compute. reflexivity.
Qed.

Lemma extract_modules_keeps_marker_lines_witness :
  extract_modules (map ascii_lower) sample_path =
    [u "Step 1: Learn Python basics"; u "Module 2: Statistics"] /\
  length (extract_modules (map ascii_lower) sample_path) = 2%nat.
Proof.
  destruct (extract_modules_keeps_marker_lines (map ascii_lower) (fun s _ => eq_refl))
    as (_ & H & Hlen & _).
  split; [exact H | exact Hlen].
Defined.

(** The test looks at the trimmed, lowercased line; the line is kept as it
    stands, and a line only counts when the marker comes first. *)
Example extract_modules_trims_and_lowercases :
  extract_modules (map ascii_lower)
    (join [10]%N [u "  STEP one" ++ [13]%N; u "A step back"; u "modules ahead"]) =
  [u "  STEP one" ++ [13]%N; u "modules ahead"].
Proof. vm_compute. reflexivity. Qed.

(** The quotient [a / b] of two lengths, [b] not zero. *)
Lemma truediv_lengths {A} (completed modules : list A) :
  modules <> [] ->
  truediv (Z.of_nat (length completed)) (Z.of_nat (length modules)) =
    Ok (Z.of_nat (length completed) # Pos.of_nat (length modules)).
Proof.
  intros Hne. unfold truediv.
  destruct modules as [|m modules]; [congruence|].
  replace (Z.of_nat (length (m :: modules)) =? 0) with false
    by (symmetry; apply Z.eqb_neq; simpl; lia).
  do 2 f_equal. simpl length. lia.
Qed.

Lemma progress_of_nonempty (completed modules : list str) :
  modules <> [] ->
  progress_of completed modules =
    Ok (Z.of_nat (length completed) # Pos.of_nat (length modules)).
Proof.
  intros Hne. unfold progress_of.
  rewrite (proj2 (nonempty_true modules) Hne). now apply truediv_lengths.
Qed.

Lemma ratio_is_one (a b : nat) : b <> 0%nat ->
  (Z.of_nat a # Pos.of_nat b == 1)%Q <-> a = b.
Proof. intros Hb. unfold Qeq. simpl. lia. Qed.

Lemma ratio_in_unit_interval (a b : nat) : b <> 0%nat -> (a <= b)%nat ->
  (0 <= Z.of_nat a # Pos.of_nat b)%Q /\ (Z.of_nat a # Pos.of_nat b <= 1)%Q.
Proof. intros Hb Hab. unfold Qle. simpl. lia. Qed.

(** C10. For every stored text the module list is non-empty, so the
    progress quotient is computed without a division by zero; and as long
    as the completed modules are a selection from the module list, the
    progress lies between 0 and 1. *)
Theorem progress_is_a_fraction (lower : str -> str) (text : str) :
  extract_modules lower text <> [] /\
  forall completed,
    completed ⊆+ extract_modules lower text ->
    exists q,
      progress_of completed (extract_modules lower text) = Ok q /\
      (0 <= q)%Q /\ (q <= 1)%Q.
Proof.
  assert (Hne : extract_modules lower text <> [])
    by apply modules_of_lines_nonempty.
  split; [exact Hne|].
  intros completed Hsub. eexists. split; [now apply progress_of_nonempty|].
  apply ratio_in_unit_interval.
  - destruct (extract_modules lower text); [congruence | discriminate].
  - now apply submseteq_length.
Qed.

Lemma progress_is_a_fraction_witness :
  extract_modules (map ascii_lower) sample_path <> [] /\
  exists q,
    progress_of [u "Module 2: Statistics"] (extract_modules (map ascii_lower) sample_path)
      = Ok q /\
    (0 <= q)%Q /\ (q <= 1)%Q.
Proof.
  destruct (progress_is_a_fraction (map ascii_lower) sample_path) as [Hne Hq].
  split; [exact Hne|]. apply Hq.
  change (extract_modules (map ascii_lower) sample_path)
    with [u "Step 1: Learn Python basics"; u "Module 2: Statistics"].
  apply submseteq_cons. reflexivity.
Defined.

(** The tracker hands the module list of the stored text to the
    checkpoints. *)
Lemma progress_tracker_on_text (w : world) (lower : str -> str) (s : state) (text : str) :
  session_state s !! u "learning_path" = Some (VStr text) ->
  progress_tracker w lower s =
  checkpoints w (extract_modules lower text)
    {| session_state := session_state s;
       trace := trace s ++
         [ui markdown (VStr (u "## " ++ [0x1F4CA]%N ++ u " Progress & Checkpoints"));
          ui info (VStr (u "Track your modules below. Mark steps as complete to stay motivated!"))] |}.
Proof.
  intros H.
  unfold progress_tracker, bind at 1, st, emit.
  unfold bind at 1, session_contains. simpl. rewrite H.
  unfold when, bind at 1. simpl.
  unfold bind at 1, session_getitem. simpl. rewrite H.
  unfold bind at 1, lift, method_split. rewrite <- app_assoc. reflexivity.
Qed.

(** What the checkpoints draw: the widget, the bar, the count and, when the
    progress equals 1, the congratulations. *)
Lemma checkpoints_emitted (w : world) (modules : list str) (s : state) :
  modules <> [] ->
  let completed := st_multiselect w (u "Completed modules") modules in
  let q := (Z.of_nat (length completed) # Pos.of_nat (length modules))%Q in
  emitted (checkpoints w modules) s =
    [ui multiselect (VStr (u "Completed modules"));
     session_write (u "completed_modules") (VList (map VStr completed));
     ui progress (VFloat q);
     ui markdown (VStr (u "**" ++ str_of_int (Z.of_nat (length completed)) ++ u " / " ++
                        str_of_int (Z.of_nat (length modules)) ++ u " modules completed!**"))]
    ++ (if Qeq_bool q 1 then [ui success (VStr congratulations)] else []).
Proof.
  intros Hne completed q. unfold emitted, checkpoints, multiselect_, keep, st.
  unfold bind, emit, session_setitem, ret, lift, when. simpl.
  fold completed. rewrite (progress_of_nonempty completed modules Hne). fold q.
  destruct (Qeq_bool q 1); simpl; rewrite <- !app_assoc; simpl;
    now rewrite drop_app_length.
Qed.

(** C6. For a non-empty module list and a selection of completed modules
    from it, the progress [len(completed) / len(modules)] equals 1 exactly
    when every module is completed, and the congratulations are shown
    exactly when the progress equals 1. *)
Theorem progress_complete_iff (w : world) (modules : list str) (s : state) :
  let completed := st_multiselect w (u "Completed modules") modules in
  modules <> [] ->
  completed ⊆+ modules ->
  exists q,
    progress_of completed modules = Ok q /\
    ((q == 1)%Q <-> modules ⊆+ completed) /\
    (NoDup modules -> ((q == 1)%Q <-> forall m, m ∈ modules -> m ∈ completed)) /\
    (In (ui success (VStr congratulations)) (emitted (checkpoints w modules) s) <->
     (q == 1)%Q).
Proof.
  intros completed Hne Hsub.
  assert (Hlen : length modules <> 0%nat) by (destruct modules; [congruence | discriminate]).
  assert (Hall : (Z.of_nat (length completed) # Pos.of_nat (length modules) == 1)%Q <->
                 modules ⊆+ completed).
  { rewrite (ratio_is_one _ _ Hlen). split.
    - intros Heq. apply Permutation_submseteq. symmetry.
      apply submseteq_length_Permutation; [exact Hsub | lia].
    - intros Hsup. apply Nat.le_antisymm; now apply submseteq_length. }
  eexists. split; [now apply progress_of_nonempty|].
  split; [exact Hall|]. split.
  - intros Hnd. rewrite Hall. split.
    + intros Hsup m Hm. now apply (elem_of_submseteq modules completed).
    + now apply NoDup_submseteq.
  - rewrite (checkpoints_emitted w modules s Hne). fold completed.
    rewrite <- Qeq_bool_iff.
    destruct (Qeq_bool _ 1); simpl.
    + split; [reflexivity | intros _; do 4 right; now left].
    + split; [|discriminate].
      intros [H|[H|[H|[H|[]]]]]; discriminate H.
Qed.

Lemma progress_complete_iff_witness :
  exists q,
    progress_of [u "Step 1"; u "Step 2"] [u "Step 1"; u "Step 2"] = Ok q /\
    (q == 1)%Q /\
    In (ui success (VStr congratulations))
       (emitted (checkpoints all_ticked [u "Step 1"; u "Step 2"]) fresh).
Proof.
  destruct (progress_complete_iff all_ticked [u "Step 1"; u "Step 2"] fresh)
    as (q & Hq & Hall & _ & Hshown).
  - discriminate.
  - reflexivity.
  - exists q. split; [exact Hq|].
    assert (H1 : (q == 1)%Q) by (apply Hall; reflexivity).
    split; [exact H1 | now apply Hshown].
Defined.

(** With a repeated line the two copies are ticked one by one: one of two
    is half of the path, although no other name is left. *)
Example progress_counts_repeated_lines :
  progress_of [u "Step 1"] [u "Step 1"; u "Step 1"] = Ok (1 # 2)%Q.
Proof. reflexivity. Qed.

(** * Further properties of the script *)

(** ** call_gemini *)

Lemma emitted_sent {A} (m : M A) (s : state) (r : request) :
  snd (m s) = sent r s -> emitted m s = [http_post r].
Proof.
  intros H. unfold emitted. rewrite H. simpl. now rewrite drop_app_length.
Qed.

Lemma getitem_key_singleton (k : str) (v : pyval) :
  getitem_key (VDict {[ k := v ]}) k = Ok v.
Proof. unfold getitem_key. now rewrite lookup_singleton_eq. Qed.

Lemma getitem_index_first (x : pyval) (l : list pyval) :
  getitem_index (VList (x :: l)) 0 = Ok x.
Proof. reflexivity. Qed.

(** Whatever the transport does, a call sends one request, the one built
    from the prompt and the key, and leaves the session state alone.  The
    prompt sits at [contents[0].parts[0].text] of the body and the key is
    the query parameter [key]. *)
Theorem call_gemini_sends_one_request (w : world) (prompt : str) (api_key : pyval)
    (s : state) :
  emitted (call_gemini w prompt api_key) s = [http_post (gemini_request prompt api_key)] /\
  session_state (snd (call_gemini w prompt api_key s)) = session_state s /\
  getitem_key (req_params (gemini_request prompt api_key)) (u "key") = Ok api_key /\
  exists contents content parts part,
    getitem_key (req_json (gemini_request prompt api_key)) (u "contents") = Ok contents /\
    getitem_index contents 0 = Ok content /\
    getitem_key content (u "parts") = Ok parts /\
    getitem_index parts 0 = Ok part /\
    getitem_key part (u "text") = Ok (VStr prompt).
Proof.
  assert (Hs : snd (call_gemini w prompt api_key s) = sent (gemini_request prompt api_key) s).
  { destruct (requests_post w (trace s) (gemini_request prompt api_key)) as [resp|e] eqn:E.
    - now rewrite (call_gemini_answered _ _ _ _ _ E).
    - now rewrite (call_gemini_unanswered _ _ _ _ _ E). }
  split; [now apply emitted_sent|]. split; [now rewrite Hs|].
  unfold gemini_request. cbn [req_params req_json].
  split; [apply getitem_key_singleton|].
  do 4 eexists.
  repeat split;
    first [apply getitem_key_singleton | apply getitem_index_first].
Qed.

(** An exception leaves [call_gemini] exactly when [requests.post] raised
    it, and the script stop never does. *)
Theorem call_gemini_raises_iff (w : world) (prompt : str) (api_key : pyval) (s : state) :
  (forall e,
     fst (call_gemini w prompt api_key s) = Raise e <->
     requests_post w (trace s) (gemini_request prompt api_key) = Err e) /\
  fst (call_gemini w prompt api_key s) <> Halt.
Proof.
  destruct (requests_post w (trace s) (gemini_request prompt api_key)) as [resp|e0] eqn:E.
  - rewrite (call_gemini_answered _ _ _ _ _ E). simpl.
    split; [|discriminate]. intros e. split; discriminate.
  - rewrite (call_gemini_unanswered _ _ _ _ _ E). simpl.
    split; [|discriminate]. intros e. split; congruence.
Qed.

(** Only the first part of the first candidate is read: further
    candidates, further parts and other keys of the objects change
    nothing. *)
Theorem call_gemini_reads_first_part (w : world) (prompt : str) (api_key : pyval)
    (s : state) (resp : response)
    (body candidate content part : gmap str pyval)
    (more_candidates more_parts : list pyval) (t : pyval) :
  requests_post w (trace s) (gemini_request prompt api_key) = Ok resp ->
  response_json resp = Ok (VDict body) ->
  body !! u "candidates" = Some (VList (VDict candidate :: more_candidates)) ->
  candidate !! u "content" = Some (VDict content) ->
  content !! u "parts" = Some (VList (VDict part :: more_parts)) ->
  part !! u "text" = Some t ->
  fst (call_gemini w prompt api_key s) = Ret t.
Proof.
  intros Hpost Hjson Hbody Hcand Hcont Hpart.
  rewrite (call_gemini_answered _ _ _ _ _ Hpost). simpl.
  unfold extract_text. rewrite Hjson. unfold getitem_key at 1. rewrite Hbody.
  simpl. rewrite Hcand. simpl. rewrite Hcont. simpl. now rewrite Hpart.
Qed.

Lemma call_gemini_reads_first_part_witness :
  fst (call_gemini (quiet_world (Ok two_candidates)) (u "Say hello") (VStr (u "k")) fresh)
    = Ret (VStr (u "first")).
Proof.
  eapply (call_gemini_reads_first_part _ _ _ _ two_candidates).
  - reflexivity.
  - reflexivity.
  - rewrite lookup_insert_ne by discriminate. apply lookup_singleton_eq.
  - rewrite lookup_insert_ne by discriminate. apply lookup_singleton_eq.
  - apply lookup_singleton_eq.
  - apply lookup_singleton_eq.
Defined.
(** ** pomodoro_timer *)

Lemma pomodoro_timer_unfold (duration : Z) :
  pomodoro_timer duration =
  (session_setitem (u "timer_running") (VBool true) ;;
   for_each (range_down (duration * 60) 0) countdown_step ;;
   session_setitem (u "timer_running") (VBool false) ;;
   session_setitem (u "timer_display") (VStr (u "00:00"))).
Proof. reflexivity. Qed.

Lemma countdown_stopped (items : list Z) (s : state) :
  stop_requested (session_state s) = true ->
  for_each items countdown_step s = (Ret tt, s).
Proof.
  intros H. destruct items as [|i items]; [reflexivity|].
  simpl. unfold bind, countdown_step, bind, session_get.
  unfold stop_requested in H. now rewrite H.
Qed.

Lemma stop_requested_display (ss : gmap str pyval) (v : pyval) :
  stop_requested (<[ u "timer_display" := v ]> ss) = stop_requested ss.
Proof. unfold stop_requested. now rewrite lookup_insert_ne by discriminate. Qed.

Lemma stop_requested_running (ss : gmap str pyval) (v : pyval) :
  stop_requested (<[ u "timer_running" := v ]> ss) = stop_requested ss.
Proof. unfold stop_requested. now rewrite lookup_insert_ne by discriminate. Qed.

Lemma countdown_runs (items : list Z) (s : state) :
  stop_requested (session_state s) = false ->
  for_each items countdown_step s =
    (Ret tt, {| session_state := counted_down (session_state s) items;
                trace := trace s ++ flat_map tick items |}).
Proof.
  revert s. induction items as [|i items IH]; intros s H.
  - simpl. rewrite app_nil_r. now destruct s.
  - simpl for_each. unfold bind at 1. unfold countdown_step at 1.
    unfold bind at 1, session_get.
    unfold stop_requested in H. rewrite H.
    unfold bind at 1, session_setitem. unfold bind at 1, emit. unfold ret.
    cbn [session_state trace].
    rewrite IH by (cbn [session_state]; now rewrite stop_requested_display).
    cbn [session_state trace]. unfold tick at 2.
    cbn [flat_map]. rewrite <- !app_assoc. reflexivity.
Qed.

Lemma counted_down_other (ss : gmap str pyval) (items : list Z) (k : str) :
  k <> u "timer_display" -> counted_down ss items !! k = ss !! k.
Proof.
  intros Hk. revert ss. induction items as [|i items IH]; intros ss; [reflexivity|].
  simpl. rewrite IH. now rewrite lookup_insert_ne by congruence.
Qed.

(** The session state a timer leaves behind, whatever happened inside. *)
Lemma timer_final_state (ss : gmap str pyval) (items : list Z) :
  <[ u "timer_display" := VStr (u "00:00") ]>
    (<[ u "timer_running" := VBool false ]>
       (counted_down (<[ u "timer_running" := VBool true ]> ss) items)) =
  <[ u "timer_display" := VStr (u "00:00") ]> (<[ u "timer_running" := VBool false ]> ss).
Proof.
  apply map_eq. intros k.
  destruct (decide (k = u "timer_display")) as [->|Hd]; [now rewrite !lookup_insert_eq|].
  rewrite !(lookup_insert_ne _ (u "timer_display")) by congruence.
  destruct (decide (k = u "timer_running")) as [->|Hr]; [now rewrite !lookup_insert_eq|].
  rewrite !(lookup_insert_ne _ (u "timer_running")) by congruence.
  rewrite counted_down_other by exact Hd.
  now rewrite lookup_insert_ne by congruence.
Qed.

(** What the timer does when a stop has been requested: the loop is left at
    once. *)
Lemma pomodoro_timer_stopped_run (duration : Z) (s : state) :
  stop_requested (session_state s) = true ->
  pomodoro_timer duration s =
    (Ret tt,
     {| session_state :=
          <[ u "timer_display" := VStr (u "00:00") ]>
            (<[ u "timer_running" := VBool false ]> (session_state s));
        trace := trace s ++
          [session_write (u "timer_running") (VBool true);
           session_write (u "timer_running") (VBool false);
           session_write (u "timer_display") (VStr (u "00:00"))] |}).
Proof.
  intros H. rewrite pomodoro_timer_unfold.
  unfold bind at 1, session_setitem at 1. unfold bind at 1.
  rewrite countdown_stopped by (cbn [session_state]; now rewrite stop_requested_running).
  unfold bind, session_setitem. cbn [session_state trace].
  rewrite insert_insert_eq. rewrite <- !app_assoc. reflexivity.
Qed.

(** What the timer does otherwise: one tick for every second. *)
Lemma pomodoro_timer_full_run (duration : Z) (s : state) :
  stop_requested (session_state s) = false ->
  pomodoro_timer duration s =
    (Ret tt,
     {| session_state :=
          <[ u "timer_display" := VStr (u "00:00") ]>
            (<[ u "timer_running" := VBool false ]> (session_state s));
        trace := trace s ++
          [session_write (u "timer_running") (VBool true)] ++
          flat_map tick (range_down (duration * 60) 0) ++
          [session_write (u "timer_running") (VBool false);
           session_write (u "timer_display") (VStr (u "00:00"))] |}).
Proof.
  intros H. rewrite pomodoro_timer_unfold.
  unfold bind at 1, session_setitem at 1. unfold bind at 1.
  rewrite countdown_runs by (cbn [session_state]; now rewrite stop_requested_running).
  unfold bind, session_setitem. cbn [session_state trace].
  rewrite timer_final_state. rewrite <- !app_assoc. reflexivity.
Qed.

Lemma emitted_app {A} (m : M A) (s : state) (o : outcome A) (ss : gmap str pyval)
    (new : list event) :
  m s = (o, {| session_state := ss; trace := trace s ++ new |}) -> emitted m s = new.
Proof. intros H. unfold emitted. rewrite H. simpl. now rewrite drop_app_length. Qed.

(** For every duration and from every state the timer returns, with
    "timer_running" off and "timer_display" at "00:00"; every other key of
    the session state is as before. *)
Theorem pomodoro_timer_final_state (duration : Z) (s : state) :
  fst (pomodoro_timer duration s) = Ret tt /\
  session_state (snd (pomodoro_timer duration s)) =
    <[ u "timer_display" := VStr (u "00:00") ]>
      (<[ u "timer_running" := VBool false ]> (session_state s)).
Proof.
  destruct (stop_requested (session_state s)) eqn:H.
  - now rewrite (pomodoro_timer_stopped_run _ _ H).
  - now rewrite (pomodoro_timer_full_run _ _ H).
Qed.

(** With a stop requested ("timer_stop" set to a true value) the timer
    neither sleeps nor writes a countdown string, whatever the duration. *)
Theorem pomodoro_timer_stopped (duration : Z) (s : state) :
  stop_requested (session_state s) = true ->
  emitted (pomodoro_timer duration) s =
    [session_write (u "timer_running") (VBool true);
     session_write (u "timer_running") (VBool false);
     session_write (u "timer_display") (VStr (u "00:00"))].
Proof.
  intros H. eapply emitted_app. now apply pomodoro_timer_stopped_run.
Qed.

Lemma pomodoro_timer_stopped_witness :
  emitted (pomodoro_timer 25) stop_set =
    [session_write (u "timer_running") (VBool true);
     session_write (u "timer_running") (VBool false);
     session_write (u "timer_display") (VStr (u "00:00"))].
Proof. apply (pomodoro_timer_stopped 25 stop_set). reflexivity. Defined.

Lemma length_range_down (start stop : Z) :
  length (range_down start stop) = Z.to_nat (start - stop).
Proof. unfold range_down. now rewrite length_map, length_seq. Qed.

Lemma sleeps_of_ticks (items : list Z) :
  length (List.filter is_sleep (flat_map tick items)) = length items.
Proof. induction items as [|i items IH]; simpl; [reflexivity | now rewrite IH]. Qed.

(** Without a stop request the timer counts every second of the duration:
    it writes the strings for [duration * 60] down to 1, each followed by a
    sleep of one second, so it sleeps [duration * 60] times (never for a
    duration of zero or less). *)
Theorem pomodoro_timer_counts_every_second (duration : Z) (s : state) :
  stop_requested (session_state s) = false ->
  emitted (pomodoro_timer duration) s =
    [session_write (u "timer_running") (VBool true)] ++
    flat_map tick (range_down (duration * 60) 0) ++
    [session_write (u "timer_running") (VBool false);
     session_write (u "timer_display") (VStr (u "00:00"))] /\
  length (List.filter is_sleep (emitted (pomodoro_timer duration) s)) =
    Z.to_nat (duration * 60).
Proof.
  intros H.
  assert (E : emitted (pomodoro_timer duration) s =
    [session_write (u "timer_running") (VBool true)] ++
    flat_map tick (range_down (duration * 60) 0) ++
    [session_write (u "timer_running") (VBool false);
     session_write (u "timer_display") (VStr (u "00:00"))]).
  { eapply emitted_app. now apply pomodoro_timer_full_run. }
  split; [exact E|]. rewrite E.
  rewrite !List.filter_app, !length_app, sleeps_of_ticks, length_range_down.
  simpl. lia.
Qed.

Lemma pomodoro_timer_counts_every_second_witness :
  length (List.filter is_sleep (emitted (pomodoro_timer 25) fresh)) = 1500%nat.
Proof.
  destruct (pomodoro_timer_counts_every_second 25 fresh) as [_ H]; [reflexivity|].
  exact H.
Defined.
(** ** Conduct of the page

    [I] is a property of states that survives every allowed event; the
    lemmas carry it, together with the absence of the script stop, through
    the pieces of the script. *)

Section Conduct.

Variable okpost : request -> Prop.
Variable okkey : str -> Prop.
Variable I : state -> Prop.

Hypothesis I_event : forall s e,
  allowed okpost okkey e -> I s ->
  I {| session_state := session_state s; trace := trace s ++ [e] |}.

Hypothesis I_write : forall s key v,
  okkey key -> I s ->
  I {| session_state := <[key := v]> (session_state s);
       trace := trace s ++ [session_write key v] |}.

Lemma conducts_ret {A} (a : A) : conducts I (ret a).
Proof. intros s H. split; [exact H | discriminate]. Qed.

Lemma conducts_bind {A B} (m : M A) (k : A -> M B) :
  conducts I m -> (forall a, conducts I (k a)) -> conducts I (bind m k).
Proof.
  intros Hm Hk s H. unfold bind. destruct (Hm s H) as [Hs Hh].
  destruct (m s) as [[a| |] s']; simpl in *.
  - now apply Hk.
  - split; [exact Hs | discriminate].
  - congruence.
Qed.

(** When the first piece always returns the same value, the rest is only
    needed for that value. *)
Lemma conducts_bind_value {A B} (m : M A) (v : A) (k : A -> M B) :
  (forall s, I s -> fst (m s) = Ret v /\ I (snd (m s))) ->
  conducts I (k v) -> conducts I (bind m k).
Proof.
  intros Hm Hk s H. unfold bind. destruct (Hm s H) as [Hv Hs].
  destruct (m s) as [o s']; simpl in *. subst o. now apply Hk.
Qed.

Lemma conducts_lift {A} (r : result A) : conducts I (lift r).
Proof. intros s H. unfold lift. destruct r; (split; [exact H | discriminate]). Qed.

Lemma conducts_try_except {A} (body handler : M A) :
  conducts I body -> conducts I handler -> conducts I (try_except body handler).
Proof.
  intros Hb Hh s H. unfold try_except. destruct (Hb s H) as [Hs Hn].
  destruct (body s) as [[a| |] s']; simpl in *.
  - split; [exact Hs | discriminate].
  - now apply Hh.
  - congruence.
Qed.

Lemma conducts_when (b : bool) (m : M unit) : conducts I m -> conducts I (when b m).
Proof. intros Hm. destruct b; [exact Hm | apply conducts_ret]. Qed.

Lemma conducts_emit (e : event) : allowed okpost okkey e -> conducts I (emit e).
Proof. intros He s H. split; [now apply I_event | discriminate]. Qed.

Lemma conducts_st (e : st_element) (text : str) : conducts I (st e text).
Proof. apply conducts_emit. exact Logic.I. Qed.

Lemma conducts_session_contains (key : str) : conducts I (session_contains key).
Proof. intros s H. split; [exact H | discriminate]. Qed.

Lemma conducts_session_getitem (key : str) : conducts I (session_getitem key).
Proof.
  intros s H. unfold session_getitem.
  destruct (_ !! _); (split; [exact H | discriminate]).
Qed.

Lemma conducts_session_get (key : str) (fallback : pyval) :
  conducts I (session_get key fallback).
Proof. intros s H. split; [exact H | discriminate]. Qed.

Lemma conducts_session_setitem (key : str) (v : pyval) :
  okkey key -> conducts I (session_setitem key v).
Proof. intros Hk s H. split; [now apply I_write | discriminate]. Qed.

Lemma conducts_for_each {A} (items : list A) (body : A -> M bool) :
  (forall x, conducts I (body x)) -> conducts I (for_each items body).
Proof.
  intros Hbody. induction items as [|x items IH]; simpl.
  - apply conducts_ret.
  - apply conducts_bind; [apply Hbody|]. intros [|]; [apply conducts_ret | exact IH].
Qed.

Variable w : world.
Variable lower : str -> str.

Lemma conducts_post (r : request) : okpost r -> conducts I (post w r).
Proof.
  intros Hr s H. unfold post.
  destruct (requests_post w (trace s) r); simpl;
    (split; [now apply I_event | discriminate]).
Qed.

Ltac conduct :=
  lazymatch goal with
  | |- conducts _ (bind _ _) => apply conducts_bind; [|intros ?]
  | |- conducts _ (when _ _) => apply conducts_when
  | |- conducts _ (ret _) => apply conducts_ret
  | |- conducts _ (lift _) => apply conducts_lift
  | |- conducts _ (st _ _) => apply conducts_st
  | |- conducts _ (emit (ui _ _)) => apply conducts_emit; exact Logic.I
  | |- conducts _ (emit (time_sleep _)) => apply conducts_emit; exact Logic.I
  | |- conducts _ (session_contains _) => apply conducts_session_contains
  | |- conducts _ (session_getitem _) => apply conducts_session_getitem
  | |- conducts _ (session_get _ _) => apply conducts_session_get
  | |- conducts _ (try_except _ _) => apply conducts_try_except
  | |- conducts _ (if ?b then _ else _) => destruct b
  end.

Lemma conducts_call_gemini (prompt : str) (api_key : pyval) :
  okpost (gemini_request prompt api_key) -> conducts I (call_gemini w prompt api_key).
Proof.
  intros Hr. unfold call_gemini. apply conducts_bind; [now apply conducts_post|].
  intros resp. repeat conduct.
Qed.

Lemma conducts_keep (key : option str) (v : pyval) :
  (forall k, key = Some k -> okkey k) -> conducts I (keep key v).
Proof.
  intros Hk. destruct key as [k|]; simpl.
  - apply conducts_session_setitem. now apply Hk.
  - apply conducts_ret.
Qed.

(** *** The widgets: what they draw is allowed, and they return what the
    user has entered. *)

Lemma conducts_text_input (label : str) (key : option str) :
  (forall k, key = Some k -> okkey k) -> conducts I (text_input_ w label key).
Proof.
  intros Hk. unfold text_input_. repeat conduct. now apply conducts_keep.
Qed.

Lemma conducts_button (label : str) : conducts I (button_ w label).
Proof. unfold button_. repeat conduct. Qed.

Lemma text_input_returns (label : str) (key : option str) (s : state) :
  (forall k, key = Some k -> okkey k) -> I s ->
  fst (text_input_ w label key s) = Ret (st_text_input w label) /\
  I (snd (text_input_ w label key s)).
Proof.
  intros Hk H. split; [|now apply conducts_text_input].
  unfold text_input_, bind, st, emit, keep, ret. now destruct key.
Qed.

Lemma button_returns (label : str) (s : state) :
  I s ->
  fst (button_ w label s) = Ret (st_button w label) /\ I (snd (button_ w label s)).
Proof. intros H. split; [reflexivity | now apply conducts_button]. Qed.

Lemma conducts_selectbox (label : str) (options : list str) :
  conducts I (selectbox_ w label options).
Proof. unfold selectbox_. repeat conduct. Qed.

Lemma conducts_radio (label : str) (options : list str) :
  conducts I (radio_ w label options).
Proof. unfold radio_. repeat conduct. Qed.

Lemma conducts_slider (label : str) (lo hi start : Z) :
  conducts I (slider_ w label lo hi start).
Proof. unfold slider_. repeat conduct. Qed.

Lemma conducts_multiselect (label : str) (options : list str) (key : option str) :
  (forall k, key = Some k -> okkey k) -> conducts I (multiselect_ w label options key).
Proof.
  intros Hk. unfold multiselect_. repeat conduct. now apply conducts_keep.
Qed.

(** *** The timer and the rest of the sidebar below it *)

Lemma conducts_timer (duration : Z) :
  okkey (u "timer_running") -> okkey (u "timer_display") ->
  conducts I (pomodoro_timer duration).
Proof.
  intros Hr Hd. unfold pomodoro_timer.
  repeat first [conduct | now apply conducts_session_setitem].
  apply conducts_for_each. intros i.
  repeat first [conduct | now apply conducts_session_setitem].
Qed.

Lemma conducts_sidebar_timer_and_quote (api_key : pyval) (p : profile) :
  okkey (u "timer_running") -> okkey (u "timer_display") -> okkey (u "timer_stop") ->
  (forall prompt, okpost (gemini_request prompt api_key)) ->
  conducts I (sidebar_timer_and_quote w api_key p).
Proof.
  intros Hr Hd Hs Hp. unfold sidebar_timer_and_quote.
  repeat first
    [ conduct
    | now apply conducts_session_setitem
    | apply conducts_button
    | now apply conducts_timer
    | apply conducts_call_gemini; apply Hp ].
Qed.

(** *** The pieces of the page *)

Hypothesis keys_allowed : Forall okkey page_keys.

Lemma key_allowed (k : str) : In k page_keys -> okkey k.
Proof.
  intros H. pose proof keys_allowed as Hall.
  rewrite List.Forall_forall in Hall. now apply Hall.
Qed.

Ltac page_key := apply key_allowed; simpl; auto 10.

Ltac widget_key :=
  let k := fresh in let H := fresh in
  intros k H; first [discriminate H | injection H as <-; page_key].

Ltac conduct_page :=
  first
    [ conduct
    | apply conducts_session_setitem; page_key
    | apply conducts_text_input; widget_key
    | apply conducts_multiselect; widget_key
    | apply conducts_selectbox | apply conducts_radio | apply conducts_slider
    | apply conducts_button ].

Lemma conducts_pomodoro_timer (duration : Z) : conducts I (pomodoro_timer duration).
Proof.
  apply conducts_timer; page_key.
Qed.

Lemma conducts_checkpoints (modules : list str) : conducts I (checkpoints w modules).
Proof. unfold checkpoints. repeat conduct_page. Qed.

Lemma conducts_progress_tracker : conducts I (progress_tracker w lower).
Proof.
  unfold progress_tracker. repeat conduct_page. apply conducts_checkpoints.
Qed.

Lemma conducts_footer : conducts I community_and_footer.
Proof. unfold community_and_footer. repeat conduct_page. Qed.

(** **** With any buttons pressed: every request is built from the key *)

Section AnyRun.

Variable api_key : pyval.

Hypothesis requests_allowed : forall prompt, okpost (gemini_request prompt api_key).

Ltac conduct_any :=
  first
    [ conduct_page
    | apply conducts_call_gemini; apply requests_allowed
    | apply conducts_pomodoro_timer ].

Lemma conducts_sidebar : conducts I (sidebar w api_key).
Proof. unfold sidebar. repeat conduct_any. Qed.

Lemma conducts_generate_learning_path (p : profile) :
  conducts I (generate_learning_path w api_key p).
Proof. unfold generate_learning_path. repeat conduct_any. Qed.

Lemma conducts_study_buddy (p : profile) : conducts I (study_buddy w api_key p).
Proof.
  unfold study_buddy. repeat conduct_any.
  destruct (buddy_prompt _ _ _); repeat conduct_any.
Qed.

Lemma conducts_suggest_project (p : profile) : conducts I (suggest_project w api_key p).
Proof. unfold suggest_project. repeat conduct_any. Qed.

Lemma conducts_adaptive_quiz (p : profile) : conducts I (adaptive_quiz w api_key p).
Proof. unfold adaptive_quiz. repeat conduct_any. Qed.

Lemma conducts_page : conducts I (page w lower api_key).
Proof.
  unfold page.
  repeat first
    [ conduct
    | apply conducts_sidebar | apply conducts_generate_learning_path
    | apply conducts_progress_tracker | apply conducts_study_buddy
    | apply conducts_suggest_project | apply conducts_adaptive_quiz
    | apply conducts_footer ].
Qed.

End AnyRun.

(** **** With no button pressed and nothing typed: no request at all *)

Section IdleRun.

Variable api_key : pyval.

Hypothesis nothing_pressed : forall label, st_button w label = false.
Hypothesis nothing_typed : forall label, st_text_input w label = [].

Lemma idle_button (label : str) (s : state) :
  I s -> fst (button_ w label s) = Ret false /\ I (snd (button_ w label s)).
Proof.
  intros H. destruct (button_returns label s H) as [Hv Hs].
  rewrite nothing_pressed in Hv. now split.
Qed.

Ltac conduct_idle :=
  first
    [ apply conducts_bind_value with (v := false);
        [ intros ? ?; now apply idle_button | cbn [when] ]
    | conduct_page ].

Lemma idle_sidebar : conducts I (sidebar w api_key).
Proof. unfold sidebar. repeat conduct_idle. Qed.

Lemma idle_generate_learning_path (p : profile) :
  conducts I (generate_learning_path w api_key p).
Proof. unfold generate_learning_path. repeat conduct_idle. Qed.

Lemma idle_study_buddy (p : profile) : conducts I (study_buddy w api_key p).
Proof.
  unfold study_buddy. apply conducts_bind; [apply conducts_st|]. intros _.
  apply conducts_bind_value with (v := []).
  - intros s H.
    rewrite <- (nothing_typed
      (u "Ask me anything about your topic, or paste a resource link for a summary:")).
    apply text_input_returns; [|exact H].
    intros k Hk. discriminate Hk.
  - simpl. apply conducts_ret.
Qed.

Lemma idle_suggest_project (p : profile) : conducts I (suggest_project w api_key p).
Proof. unfold suggest_project. repeat conduct_idle. Qed.

Lemma idle_adaptive_quiz (p : profile) : conducts I (adaptive_quiz w api_key p).
Proof. unfold adaptive_quiz. repeat conduct_idle. Qed.

Lemma idle_page : conducts I (page w lower api_key).
Proof.
  unfold page.
  repeat first
    [ conduct
    | apply idle_sidebar | apply idle_generate_learning_path
    | apply conducts_progress_tracker | apply idle_study_buddy
    | apply idle_suggest_project | apply idle_adaptive_quiz
    | apply conducts_footer ].
Qed.

End IdleRun.

End Conduct.
(** ** The whole run *)

Lemma only_posts_event (okpost : request -> Prop) (s : state) (e : event) :
  allowed okpost (fun _ => True) e -> only_posts okpost s ->
  only_posts okpost {| session_state := session_state s; trace := trace s ++ [e] |}.
Proof.
  unfold only_posts. simpl. intros He H.
  apply Forall_app. split; [exact H | now constructor].
Qed.

Lemma only_posts_write (okpost : request -> Prop) (s : state) (key : str) (v : pyval) :
  True -> only_posts okpost s ->
  only_posts okpost {| session_state := <[key := v]> (session_state s);
                       trace := trace s ++ [session_write key v] |}.
Proof.
  unfold only_posts. simpl. intros _ H.
  apply Forall_app. split; [exact H | now constructor].
Qed.

Lemma every_key_allowed : Forall (fun _ : str => True) page_keys.
Proof. apply List.Forall_forall. intros k _. exact Logic.I. Qed.

Lemma only_posts_setup (okpost : request -> Prop) (tail : list event) :
  Forall (allowed okpost (fun _ => True)) tail ->
  Forall (allowed okpost (fun _ => True)) ([] ++ setup_events ++ tail).
Proof. intros H. simpl. repeat constructor. exact H. Qed.

Lemma posts_of_run (okpost : request -> Prop) (w : world) (lower : str -> str)
    (ss : gmap str pyval) :
  conducts (only_posts okpost) (page w lower (credential w)) ->
  forall r, In (http_post r) (trace (run w lower ss)) -> okpost r.
Proof.
  intros Hpage r Hr.
  assert (Hall : only_posts okpost (run w lower ss)).
  { unfold run. destruct (secrets w) as [store|] eqn:Hfile;
      [destruct (truthy (credential w)) eqn:Hk|].
    - rewrite (app_with_key _ _ _ Hk). apply Hpage.
      unfold only_posts. cbn [trace]. rewrite <- (app_nil_r setup_events).
      apply only_posts_setup. constructor.
    - rewrite app_without_key by congruence. unfold only_posts. cbn [snd trace].
      apply only_posts_setup. repeat constructor.
    - rewrite (app_without_secrets _ _ _ Hfile). unfold only_posts. cbn [snd trace].
      rewrite <- (app_nil_r setup_events). apply only_posts_setup. constructor. }
  unfold only_posts in Hall. rewrite List.Forall_forall in Hall.
  exact (Hall _ Hr).
Qed.

(** Every request of a run is the Gemini request of some prompt, with the
    credential of the secrets store as its key: the page sends the
    credential nowhere else and in no other place of the request. *)
Theorem every_request_carries_the_credential (w : world) (lower : str -> str)
    (ss : gmap str pyval) (r : request) :
  In (http_post r) (trace (run w lower ss)) ->
  exists prompt, r = gemini_request prompt (credential w).
Proof.
  apply (posts_of_run (fun r => exists prompt, r = gemini_request prompt (credential w))).
  apply (conducts_page (fun r => exists prompt, r = gemini_request prompt (credential w))
                        (fun _ => True)).
  - apply only_posts_event.
  - intros s key v. apply only_posts_write.
  - apply every_key_allowed.
  - intros prompt. now exists prompt.
Qed.

Lemma every_request_carries_the_credential_witness :
  exists prompt,
    gemini_request (u "Give me a short motivational quote for students fighting digital distractions.")
                   (VStr (u "k"))
    = gemini_request prompt
        (credential (sample_world (Some (VStr (u "k")))
                       (fun label => bool_decide (label = [0x1F4A1]%N ++ u " Need Motivation?"))
                       (fun _ => []) (Err Timeout))).
Proof.
  apply (every_request_carries_the_credential _ (map ascii_lower) ∅).
  vm_compute. tauto.
Defined.

(** A run in which no button is pressed and every text box is empty sends
    no request. *)
Theorem idle_run_sends_nothing (w : world) (lower : str -> str) (ss : gmap str pyval) :
  (forall label, st_button w label = false) ->
  (forall label, st_text_input w label = []) ->
  existsb is_http_post (trace (run w lower ss)) = false.
Proof.
  intros Hb Ht.
  destruct (existsb is_http_post (trace (run w lower ss))) eqn:E; [|reflexivity].
  exfalso. apply existsb_exists in E as (e & He & Hpost).
  destruct e as [| |r|]; try discriminate Hpost.
  clear Hpost. revert r He.
  apply (posts_of_run (fun _ => False)).
  apply (idle_page (fun _ => False) (fun _ => True)).
  - apply only_posts_event.
  - intros s key v. apply only_posts_write.
  - apply every_key_allowed.
  - exact Hb.
  - exact Ht.
Qed.

Lemma idle_run_sends_nothing_witness :
  existsb is_http_post (trace (run all_ticked (map ascii_lower) ∅)) = false.
Proof.
  apply (idle_run_sends_nothing all_ticked (map ascii_lower) ∅); reflexivity.
Defined.

(** Without a secrets file the run ends in the exception of the lookup,
    not in the script stop. With a secrets file it ends in the script stop
    exactly when GEMINI_API_KEY is missing from the file or false in
    Python's sense (empty string, 0, False, an empty table); any other
    value, a string or not, lets the page run, and the page itself never
    stops the script. *)
Theorem run_stops_iff_no_credential (w : world) (lower : str -> str) (s : state) :
  match secrets w with
  | None => fst (app w lower s) = Raise StreamlitSecretNotFoundError
  | Some store =>
      fst (app w lower s) = Halt <->
      truthy (default (VStr []) (store !! u "GEMINI_API_KEY")) = false
  end.
Proof.
  destruct (secrets w) as [store|] eqn:Hfile.
  - assert (Hc : credential w = default (VStr []) (store !! u "GEMINI_API_KEY")).
    { unfold credential, secrets_get. now rewrite Hfile. }
    rewrite <- Hc. split.
    + intros H. destruct (truthy (credential w)) eqn:Hk; [|reflexivity].
      rewrite (app_with_key _ _ _ Hk) in H. exfalso. revert H.
      apply (conducts_page (fun _ => True) (fun _ => True) (fun _ => True)); auto.
      apply every_key_allowed.
    + intros Hk. rewrite app_without_key; [reflexivity | congruence | exact Hk].
  - now rewrite (app_without_secrets _ _ _ Hfile).
Qed.

(** A run assigns only the eight keys of the page: whatever else the
    session state holds is there unchanged at the end, however the run
    ends. *)
Theorem run_keeps_other_keys (w : world) (lower : str -> str) (s : state) (k : str) :
  ~ In k page_keys ->
  session_state (snd (app w lower s)) !! k = session_state s !! k.
Proof.
  intros Hk.
  set (I := fun s' : state => session_state s' !! k = session_state s !! k).
  assert (Hpage : forall key, conducts I (page w lower key)).
  { intros key. apply (conducts_page (fun _ => True) (fun k' => k' <> k)).
    - intros s' e _ H. exact H.
    - intros s' key' v Hne H. unfold I in *. cbn [session_state].
      now rewrite lookup_insert_ne.
    - apply List.Forall_forall. intros k' Hin ->. now apply Hk.
    - intros prompt. exact Logic.I. }
  destruct (secrets w) as [store|] eqn:Hfile;
    [destruct (truthy (credential w)) eqn:Hc|].
  - rewrite (app_with_key _ _ _ Hc). now apply Hpage.
  - rewrite app_without_key by congruence. reflexivity.
  - now rewrite (app_without_secrets _ _ _ Hfile).
Qed.

Lemma run_keeps_other_keys_witness :
  session_state
    (snd (app pomodoro_world (map ascii_lower)
            {| session_state := {[ u "visits" := VInt 3 ]}; trace := [] |}))
    !! u "visits" = Some (VInt 3).
Proof.
  rewrite (run_keeps_other_keys pomodoro_world (map ascii_lower)
             {| session_state := {[ u "visits" := VInt 3 ]}; trace := [] |} (u "visits")).
  - apply lookup_singleton_eq.
  - vm_compute. intuition discriminate.
Defined.
(** ** Generation, tracker and study buddy *)

Lemma bind_returned {A B} (m : M A) (k : A -> M B) (s s' : state) (a : A) :
  m s = (Ret a, s') -> bind m k s = k a s'.
Proof. intros H. unfold bind. now rewrite H. Qed.

Lemma bind_raised {A B} (m : M A) (k : A -> M B) (s s' : state) (e : exn) :
  m s = (Raise e, s') -> bind m k s = (Raise e, s').
Proof. intros H. unfold bind. now rewrite H. Qed.

Lemma generate_learning_path_pressed (w : world) (api_key : pyval) (p : profile) (s : state) :
  st_button w (u "Generate Learning Path") = true ->
  generate_learning_path w api_key p s =
  (plan <- call_gemini w (profile_prompt p) api_key ;;
   st markdown (u "### " ++ [0x1F3AF]%N ++ u " Your Personalized Learning Path") ;;
   emit (ui markdown plan) ;;
   session_setitem (u "learning_path") plan ;;
   session_setitem (u "path_generated_at") (VDatetime (datetime_now w))) (generating s).
Proof.
  intros H. unfold generate_learning_path.
  erewrite bind_returned by reflexivity.
  unfold button_. erewrite bind_returned by (erewrite bind_returned; reflexivity).
  rewrite H. cbn [when].
  erewrite bind_returned by reflexivity.
  unfold generating. cbn [session_state trace]. rewrite <- !app_assoc. reflexivity.
Qed.

(** When the button is pressed and the transport answers, the completion
    (the text, or the sentinel when the body has no text) is stored as the
    learning path together with the time, and the run goes on. *)
Theorem generate_stores_the_completion (w : world) (api_key : pyval) (p : profile)
    (s : state) (resp : response) :
  st_button w (u "Generate Learning Path") = true ->
  (forall t, requests_post w t (gemini_request (profile_prompt p) api_key) = Ok resp) ->
  fst (generate_learning_path w api_key p s) = Ret tt /\
  session_state (snd (generate_learning_path w api_key p s)) =
    <[ u "path_generated_at" := VDatetime (datetime_now w) ]>
      (<[ u "learning_path" := completion resp ]> (session_state s)).
Proof.
  intros Hb Hp. rewrite (generate_learning_path_pressed _ _ _ _ Hb).
  erewrite bind_returned by (apply call_gemini_answered; apply Hp).
  split; reflexivity.
Qed.

(** When the request raises, the exception ends the section before
    anything is stored: the session state, an earlier learning path
    included, is as it was. *)
Theorem generate_failure_keeps_the_path (w : world) (api_key : pyval) (p : profile)
    (s : state) (e : exn) :
  st_button w (u "Generate Learning Path") = true ->
  (forall t, requests_post w t (gemini_request (profile_prompt p) api_key) = Err e) ->
  fst (generate_learning_path w api_key p s) = Raise e /\
  session_state (snd (generate_learning_path w api_key p s)) = session_state s.
Proof.
  intros Hb Hp. rewrite (generate_learning_path_pressed _ _ _ _ Hb).
  erewrite bind_raised by (apply call_gemini_unanswered; apply Hp).
  split; reflexivity.
Qed.

Lemma generate_stores_the_completion_witness :
  session_state
    (snd (generate_learning_path (generate_pressed (Ok hello_response)) (VStr (u "k"))
            sample_profile fresh))
  = <[ u "path_generated_at" := VDatetime 0 ]> (<[ u "learning_path" := VStr (u "Hello") ]> ∅).
Proof.
  destruct (generate_stores_the_completion (generate_pressed (Ok hello_response))
              (VStr (u "k")) sample_profile fresh hello_response) as [_ H];
    [reflexivity | reflexivity |].
  rewrite H. unfold completion, hello_response. now rewrite extract_text_envelope.
Defined.

Lemma generate_failure_keeps_the_path_witness :
  fst (generate_learning_path (generate_pressed (Err Timeout)) (VStr (u "k"))
         sample_profile
         {| session_state := {[ u "learning_path" := VStr (u "Step 1") ]}; trace := [] |})
    = Raise Timeout /\
  session_state
    (snd (generate_learning_path (generate_pressed (Err Timeout)) (VStr (u "k"))
            sample_profile
            {| session_state := {[ u "learning_path" := VStr (u "Step 1") ]}; trace := [] |}))
    = {[ u "learning_path" := VStr (u "Step 1") ]}.
Proof.
  apply (generate_failure_keeps_the_path (generate_pressed (Err Timeout))); reflexivity.
Defined.

(** Before any learning path has been generated the tracker draws its
    heading and nothing else: no checklist, no progress bar. *)
Theorem tracker_without_path (w : world) (lower : str -> str) (s : state) :
  session_state s !! u "learning_path" = None ->
  progress_tracker w lower s =
    (Ret tt, {| session_state := session_state s; trace := trace s ++ [tracker_header] |}).
Proof.
  intros H. unfold progress_tracker.
  erewrite bind_returned by reflexivity.
  unfold session_contains. erewrite bind_returned by reflexivity.
  cbn [session_state]. rewrite H. reflexivity.
Qed.

Lemma tracker_without_path_witness :
  progress_tracker all_ticked (map ascii_lower) fresh =
    (Ret tt, {| session_state := ∅; trace := [] ++ [tracker_header] |}).
Proof. apply (tracker_without_path all_ticked (map ascii_lower) fresh). reflexivity. Defined.

(** A stored learning path that is not a string (the "text" of the
    response can be any JSON value, and [call_gemini] returns it as it is)
    makes the tracker raise AttributeError at [.split], after the heading
    and the hint. *)
Theorem tracker_rejects_non_string (w : world) (lower : str -> str) (s : state) (v : pyval) :
  session_state s !! u "learning_path" = Some v ->
  is_str v = false ->
  progress_tracker w lower s =
    (Raise AttributeError,
     {| session_state := session_state s;
        trace := trace s ++ [tracker_header; tracker_info] |}).
Proof.
  intros H Hv. unfold progress_tracker.
  erewrite bind_returned by reflexivity.
  unfold session_contains. erewrite bind_returned by reflexivity.
  cbn [session_state]. rewrite H. cbn [when].
  erewrite bind_returned by reflexivity.
  unfold session_getitem. erewrite bind_returned
    by (cbn [session_state]; rewrite H; reflexivity).
  assert (Hsplit : method_split v 10 = Err AttributeError)
    by (destruct v; try discriminate Hv; reflexivity).
  erewrite bind_raised by (rewrite Hsplit; reflexivity).
  cbn [trace]. rewrite <- app_assoc. reflexivity.
Qed.

Lemma tracker_rejects_non_string_witness :
  progress_tracker all_ticked (map ascii_lower) null_path =
    (Raise AttributeError,
     {| session_state := session_state null_path;
        trace := trace null_path ++ [tracker_header; tracker_info] |}).
Proof.
  apply (tracker_rejects_non_string all_ticked (map ascii_lower) null_path VNone);
    reflexivity.
Defined.

(** Generation and tracker in one run: the tracker that follows works on
    the text just received, not on the path stored before; its checklist
    holds the modules of the new text. *)
Theorem tracker_follows_generation (w : world) (lower : str -> str) (api_key : pyval)
    (p : profile) (s : state) (resp : response) (text : str) :
  st_button w (u "Generate Learning Path") = true ->
  (forall t, requests_post w t (gemini_request (profile_prompt p) api_key) = Ok resp) ->
  extract_text resp = Ok (VStr text) ->
  (generate_learning_path w api_key p ;; progress_tracker w lower) s =
  checkpoints w (extract_modules lower text)
    {| session_state := session_state (generated w p api_key (VStr text) s);
       trace := trace (generated w p api_key (VStr text) s) ++ [tracker_header; tracker_info] |}.
Proof.
  intros Hb Hp Ht.
  assert (Hg : generate_learning_path w api_key p s =
               (Ret tt, generated w p api_key (VStr text) s)).
  { rewrite (generate_learning_path_pressed _ _ _ _ Hb).
    erewrite bind_returned by (apply call_gemini_answered; apply Hp).
    rewrite Ht. unfold generated, sent, bind, st, emit, session_setitem.
    cbn [session_state trace fst snd]. rewrite <- !app_assoc. reflexivity. }
  rewrite (bind_returned _ _ _ _ _ Hg).
  apply progress_tracker_on_text.
  unfold generated. cbn [session_state].
  rewrite lookup_insert_ne by discriminate. apply lookup_insert_eq.
Qed.
(** ** Focus mode *)

Lemma bind_bind {A B C} (m : M A) (f : A -> M B) (g : B -> M C) (s : state) :
  bind (bind m f) g s = bind m (fun x => bind (f x) g) s.
Proof. unfold bind. destruct (m s) as [[a| |] s']; reflexivity. Qed.

Lemma session_getitem_found (key : str) (v : pyval) (s : state) :
  session_state s !! key = Some v -> session_getitem key s = (Ret v, s).
Proof. intros H. unfold session_getitem. now rewrite H. Qed.

Ltac run_step :=
  erewrite bind_returned
    by (cbv [text_input_ selectbox_ radio_ slider_ multiselect_ button_ st emit keep
             session_setitem session_contains bind ret]; reflexivity);
  cbn [session_state trace].

Ltac run_get :=
  erewrite bind_returned
    by (apply session_getitem_found; cbn [session_state];
        (rewrite ?lookup_insert_eq, ?(lookup_insert_ne _ (u "username")) by discriminate);
        first [reflexivity | eassumption]);
  cbn [session_state trace].

Ltac reach_timer :=
  eexists; split; [reflexivity|]; cbn [session_state trace]; split;
  [ (rewrite ?lookup_insert_eq, ?(lookup_insert_ne _ (u "username")) by discriminate);
    first [reflexivity | eassumption]
  | rewrite !List.filter_app; cbn [List.filter is_sleep]; now rewrite !app_nil_r ].

(** The sidebar down to the timer: the profile is read from the widgets,
    the focus flag is initialised and toggled, and nothing sleeps. *)
Lemma sidebar_reaches_timer (w : world) (api_key : pyval) (s : state) :
  exists s',
    sidebar w api_key s = sidebar_timer_and_quote w api_key (entered_profile w) s' /\
    session_state s' !! u "focus_mode" = Some (focus_after w (session_state s)) /\
    List.filter is_sleep (trace s') = List.filter is_sleep (trace s).
Proof.
  unfold sidebar. do 10 run_step.
  rewrite lookup_insert_ne by discriminate.
  unfold focus_after, focus_before.
  destruct (session_state s !! u "focus_mode") as [v|] eqn:Hf;
    cbn [negb when default id]; run_step; run_step;
    destruct (st_button w _); cbn [when].
  - rewrite bind_bind. run_get. run_step. run_get.
    destruct (truthy v); cbn [truthy negb when]; run_step; reach_timer.
  - run_step. run_get. destruct (truthy v); cbn [when]; run_step; reach_timer.
  - rewrite bind_bind. run_get. run_step. run_get.
    cbn [truthy negb when]. run_step. reach_timer.
  - run_step. run_get. cbn [truthy when]. run_step. reach_timer.
Qed.

(** The focus flag after the sidebar, however the sidebar ends. *)
Lemma sidebar_focus_value (w : world) (api_key : pyval) (s : state) :
  session_state (snd (sidebar w api_key s)) !! u "focus_mode" =
    Some (focus_after w (session_state s)).
Proof.
  destruct (sidebar_reaches_timer w api_key s) as (s' & -> & Hs' & _).
  revert Hs'.
  apply (conducts_sidebar_timer_and_quote (fun _ => True)
           (fun k => k <> u "focus_mode")
           (fun s0 => session_state s0 !! u "focus_mode" =
                      Some (focus_after w (session_state s)))).
  - intros s0 e _ H. exact H.
  - intros s0 key v Hne H. cbn [session_state]. now rewrite lookup_insert_ne.
  - discriminate.
  - discriminate.
  - discriminate.
  - intros prompt. exact Logic.I.
Qed.

(** After the sidebar the focus flag is off if it was never set and the
    button is not pressed, the negation of what it was if the button is
    pressed, and what it was otherwise, however the sidebar ends (also when
    the request of the motivational quote raises). *)
Theorem sidebar_toggles_focus (w : world) (api_key : pyval) (s : state) :
  session_state (snd (sidebar w api_key s)) !! u "focus_mode" =
    Some (if st_button w ([0x1F512]%N ++ u " Toggle Focus Mode")
          then VBool (negb (truthy (default (VBool false)
                                      (session_state s !! u "focus_mode"))))
          else default (VBool false) (session_state s !! u "focus_mode")).
Proof. apply sidebar_focus_value. Qed.


(** ** The countdown inside the page *)

Lemma sleeps_app (a b : list event) : sleeps (a ++ b) = (sleeps a + sleeps b)%nat.
Proof. unfold sleeps. now rewrite List.filter_app, length_app. Qed.

Lemma sleeps_ticks (items : list Z) : sleeps (flat_map tick items) = length items.
Proof. apply sleeps_of_ticks. Qed.

Lemma session_contains_run (key : str) (s : state) :
  session_contains key s =
    (Ret (match session_state s !! key with Some _ => true | None => false end), s).
Proof. reflexivity. Qed.

Ltac run_timer :=
  erewrite bind_returned
    by (apply pomodoro_timer_full_run; cbn [session_state]; unfold stop_requested;
        (rewrite ?lookup_insert_eq, ?lookup_insert_ne by discriminate); reflexivity);
  cbn [session_state trace].

Ltac run_found :=
  erewrite bind_returned
    by (apply session_getitem_found; cbn [session_state];
        repeat first [rewrite lookup_insert_eq | rewrite lookup_insert_ne by discriminate];
        first [reflexivity | eassumption]);
  cbn [session_state trace].

Ltac count_sleeps :=
  cbn [snd trace]; rewrite ?sleeps_app, ?sleeps_ticks, ?length_range_down;
  cbn [sleeps List.filter is_sleep length]; lia.

(** Pressing "Start Pomodoro" clears a stop requested earlier before the
    timer starts, so the countdown of the page always runs all of its 1500
    seconds. *)
Theorem start_runs_the_full_countdown (w : world) (api_key : pyval) (s : state) :
  st_button w ([0x23F1; 0xFE0F]%N ++ u " Start Pomodoro (25m)") = true ->
  sleeps (trace (snd (sidebar w api_key s))) = (sleeps (trace s) + 1500)%nat.
Proof.
  intros Hstart.
  destruct (sidebar_reaches_timer w api_key s) as (s' & -> & _ & Hsl).
  unfold sleeps at 2. rewrite <- Hsl. fold (sleeps (trace s')).
  unfold sidebar_timer_and_quote.
  rewrite (bind_returned _ _ _ _ _ (session_contains_run _ _)).
  destruct (session_state s' !! u "timer_running") as [r|] eqn:Hr;
    cbn [negb when]; run_step;
    rewrite (bind_returned _ _ _ _ _ (session_contains_run _ _)); cbn [session_state];
    (rewrite ?lookup_insert_ne by discriminate);
    (destruct (session_state s' !! u "timer_display") as [d|] eqn:Hd;
     cbn [negb when]; run_step; run_step; rewrite Hstart; cbn [when];
     rewrite bind_bind; run_step; rewrite bind_bind; run_step; run_timer;
     run_found; run_step; run_found;
     cbn [truthy when]; run_step; run_step;
     (destruct (st_button w ([0x1F4A1]%N ++ u " Need Motivation?")); cbn [when];
      [ cbv zeta; rewrite bind_bind;
        match goal with
        | |- context [bind (call_gemini w ?p ?k) _ ?st] =>
            destruct (requests_post w (trace st) (gemini_request p k)) as [resp|e] eqn:Hp;
            [ rewrite (bind_returned _ _ _ _ _ (call_gemini_answered _ _ _ _ _ Hp));
              cbv beta; run_step
            | rewrite (bind_raised _ _ _ _ _ (call_gemini_unanswered _ _ _ _ _ Hp)) ]
        end
      | run_step ])).
  all: unfold ret, sent; count_sleeps.
Qed.

Lemma start_runs_the_full_countdown_witness :
  sleeps (trace (snd (sidebar pomodoro_world (VStr (u "k")) stop_set))) = (0 + 1500)%nat.
Proof.
  apply (start_runs_the_full_countdown pomodoro_world (VStr (u "k")) stop_set).
  reflexivity.
Defined.
(** ** Study buddy *)

(** For a question that is not empty the study buddy sends one request and
    shows what [call_gemini] returned in a success box, the failure
    sentinel like any answer. *)
Theorem study_buddy_shows_the_completion (w : world) (api_key : pyval) (p : profile)
    (s : state) (prompt : str) (resp : response) :
  buddy_prompt (level p) (topic p) (st_text_input w buddy_label) = Some prompt ->
  (forall t, requests_post w t (gemini_request prompt api_key) = Ok resp) ->
  study_buddy w api_key p s =
    (Ret tt,
     {| session_state := session_state s;
        trace := trace s ++
          [ui markdown (VStr (u "## " ++ [0x1F916]%N ++ u " AI Study Buddy (Ask Gemini)"));
           ui text_input (VStr buddy_label);
           ui spinner (VStr (u "Gemini is thinking..."));
           http_post (gemini_request prompt api_key);
           ui success (completion resp)] |}).
Proof.
  intros Hq Hp. unfold study_buddy. run_step. run_step.
  fold buddy_label. rewrite Hq. run_step.
  rewrite (bind_returned _ _ _ _ _ (call_gemini_answered _ _ _ _ _ (Hp _))).
  unfold emit, sent. cbn [session_state trace]. fold (completion resp).
  rewrite <- !app_assoc. reflexivity.
Qed.

Lemma study_buddy_shows_the_completion_witness :
  emitted (study_buddy (asking (quiet_world (Ok empty_object)) (u "How do I start?"))
             (VStr (u "k")) sample_profile) fresh =
    [ui markdown (VStr (u "## " ++ [0x1F916]%N ++ u " AI Study Buddy (Ask Gemini)"));
     ui text_input (VStr buddy_label);
     ui spinner (VStr (u "Gemini is thinking..."));
     http_post (gemini_request
                  (explain_prompt (u "Advanced") (u "UI/UX") (u "How do I start?"))
                  (VStr (u "k")));
     ui success (VStr sentinel)].
Proof.
  eapply emitted_app.
  apply (study_buddy_shows_the_completion
           (asking (quiet_world (Ok empty_object)) (u "How do I start?"))
           (VStr (u "k")) sample_profile fresh _ empty_object); reflexivity.
Defined.

(** ** Prompts *)

Lemma join_mentions (sep : str) (items : list str) (x : str) :
  In x items -> exists pre post, join sep items = pre ++ x ++ post.
Proof.
  induction items as [|y items IH]; [intros []|].
  intros [->|Hin].
  - destruct items as [|z items].
    + exists [], []. simpl. now rewrite app_nil_r.
    + exists [], (sep ++ join sep (z :: items)). reflexivity.
  - destruct (IH Hin) as (pre & post & E).
    destruct items as [|z items]; [destruct Hin|].
    exists (y ++ sep ++ pre), post.
    change (join sep (y :: z :: items)) with (y ++ sep ++ join sep (z :: items)).
    rewrite E, <- !app_assoc. reflexivity.
Qed.

(** Every selected learning style and a goal that is not empty stand
    verbatim in the learning-path prompt. *)
Theorem base_prompt_mentions_choices (topic level : str) (hours : Z)
    (style : list str) (goal : str) :
  (forall x, In x style -> contains (base_prompt topic level hours style goal) x = true) /\
  (goal <> [] -> contains (base_prompt topic level hours style goal) goal = true).
Proof.
  rewrite base_prompt_shape. split.
  - intros x Hx. destruct style as [|y style]; [destruct Hx|].
    cbn [nonempty].
    destruct (join_mentions (u ", ") (y :: style) x Hx) as (pre & post & ->).
    rewrite <- !app_assoc. rewrite (app_assoc (prompt_opening _ _ _) pre).
    apply contains_infix.
  - intros Hg. rewrite (proj2 (nonempty_true goal) Hg).
    rewrite (app_assoc (prompt_opening _ _ _)).
    rewrite (app_assoc (_ ++ _) (u ". Goal: ")).
    apply contains_infix.
Qed.

Lemma contains_suffix (pre needle : str) : contains (pre ++ needle) needle = true.
Proof. rewrite <- (app_nil_r needle) at 1. apply contains_infix. Qed.

(** The other templates carry their fields verbatim as well: level, topic
    and question in the explanation prompt, the pasted link in the summary
    prompt, level and topic in the project and quiz prompts. *)
Theorem templates_mention_their_fields (level topic question : str) :
  contains (explain_prompt level topic question) level = true /\
  contains (explain_prompt level topic question) topic = true /\
  contains (explain_prompt level topic question) question = true /\
  contains (summary_prompt question) question = true /\
  contains (project_prompt level topic) level = true /\
  contains (project_prompt level topic) topic = true /\
  contains (quiz_prompt level topic) level = true /\
  contains (quiz_prompt level topic) topic = true.
Proof.
  unfold explain_prompt, summary_prompt, project_prompt, quiz_prompt.
  repeat split.
  - apply contains_infix.
  - do 2 rewrite app_assoc. apply contains_infix.
  - do 4 rewrite app_assoc. apply contains_suffix.
  - apply contains_suffix.
  - apply contains_infix.
  - do 2 rewrite app_assoc. apply contains_infix.
  - apply contains_infix.
  - do 2 rewrite app_assoc. apply contains_infix.
Qed.

(** ** The module list read again *)

Lemma split_plain (s : str) (sep : N) : ~ In sep s -> split s sep = [s].
Proof.
  induction s as [|c s IH]; [reflexivity|].
  intros Hs. simpl.
  destruct (N.eqb_spec c sep) as [->|Hne]; [exfalso; apply Hs; now left|].
  rewrite IH; [reflexivity|]. intros H. apply Hs. now right.
Qed.

Lemma split_first (a rest : str) (sep : N) :
  ~ In sep a -> split (a ++ sep :: rest) sep = a :: split rest sep.
Proof.
  induction a as [|c a IH]; intros Ha.
  - simpl. now rewrite N.eqb_refl.
  - simpl.
    destruct (N.eqb_spec c sep) as [->|Hne]; [exfalso; apply Ha; now left|].
    rewrite IH; [reflexivity|]. intros H. apply Ha. now right.
Qed.

(** The pieces of a split hold no separator. *)
Lemma split_pieces_plain (s : str) (sep : N) (piece : str) :
  In piece (split s sep) -> ~ In sep piece.
Proof.
  revert piece. induction s as [|c s IH]; intros piece.
  - simpl. intros [<-|[]]. intros [].
  - simpl.
    destruct (N.eqb_spec c sep) as [->|Hne].
    + intros [<-|H]; [intros [] | now apply IH].
    + destruct (split s sep) as [|first others] eqn:E.
      * intros [<-|[]]. intros [H|[]]. congruence.
      * intros [<-|H].
        -- intros [H|H]; [congruence|]. apply (IH first); [now left | exact H].
        -- apply IH. now right.
Qed.

(** Splitting what was joined gives the pieces back. *)
Lemma split_join (pieces : list str) (sep : N) :
  pieces <> [] -> (forall piece, In piece pieces -> ~ In sep piece) ->
  split (join [sep] pieces) sep = pieces.
Proof.
  induction pieces as [|x pieces IH]; [congruence|].
  intros _ Hplain. destruct pieces as [|y pieces].
  - simpl. apply split_plain. apply Hplain. now left.
  - change (join [sep] (x :: y :: pieces)) with (x ++ sep :: join [sep] (y :: pieces)).
    rewrite split_first by (apply Hplain; now left).
    rewrite IH; [reflexivity | discriminate |].
    intros piece H. apply Hplain. now right.
Qed.

Lemma filter_all {A} (f : A -> bool) (l : list A) :
  (forall x, In x l -> f x = true) -> List.filter f l = l.
Proof.
  induction l as [|x l IH]; intros H; [reflexivity|].
  simpl. rewrite (H x) by now left. rewrite IH; [reflexivity|].
  intros y Hy. apply H. now right.
Qed.

(** The module list is stable: joined with newlines and read again it is
    the same list (the placeholders count as module lines themselves). *)
Theorem extract_modules_again (lower : str -> str) (text : str) :
  (forall s, forallb is_ascii s = true -> lower s = map ascii_lower s) ->
  extract_modules lower (join [10]%N (extract_modules lower text)) =
  extract_modules lower text.
Proof.
  intros Hlower.
  assert (Hstable : forall modules,
            modules <> [] ->
            (forall m, In m modules -> ~ In 10%N m) ->
            (forall m, In m modules -> is_module_line lower m = true) ->
            extract_modules lower (join [10]%N modules) = modules).
  { intros modules Hne Hplain Hmarked. unfold extract_modules, modules_of_lines.
    rewrite split_join by assumption. rewrite filter_all by exact Hmarked.
    destruct modules; [congruence | reflexivity]. }
  unfold extract_modules at 2 3. unfold modules_of_lines.
  destruct (List.filter (is_module_line lower) (split text 10)) as [|m kept] eqn:E;
    cbn [nonempty negb].
  - apply Hstable; [discriminate | |].
    + intros m Hm. vm_compute in Hm. intros H10.
      repeat (destruct Hm as [<-|Hm];
              [vm_compute in H10; intuition discriminate|]).
      destruct Hm.
    + intros m Hm. vm_compute in Hm.
      repeat (destruct Hm as [<-|Hm];
              [rewrite is_module_line_ascii by (exact Hlower || (vm_compute; reflexivity));
               vm_compute; reflexivity|]).
      destruct Hm.
  - apply Hstable; [discriminate | |].
    + intros x Hx. rewrite <- E in Hx. apply List.filter_In in Hx as [Hx _].
      now apply (split_pieces_plain text 10).
    + intros x Hx. rewrite <- E in Hx. now apply List.filter_In in Hx as [_ Hx].
Qed.

Lemma extract_modules_again_witness :
  extract_modules (map ascii_lower)
    (join [10]%N (extract_modules (map ascii_lower) sample_path)) =
  extract_modules (map ascii_lower) sample_path.
Proof.
  apply (extract_modules_again (map ascii_lower) sample_path). intros s _. reflexivity.
Defined.

Lemma tracker_follows_generation_witness :
  (generate_learning_path (generate_pressed (Ok path_response)) (VStr (u "k")) sample_profile ;;
   progress_tracker (generate_pressed (Ok path_response)) (map ascii_lower)) fresh =
  checkpoints (generate_pressed (Ok path_response))
    (extract_modules (map ascii_lower) sample_path)
    {| session_state :=
         session_state (generated (generate_pressed (Ok path_response)) sample_profile
                          (VStr (u "k")) (VStr sample_path) fresh);
       trace :=
         trace (generated (generate_pressed (Ok path_response)) sample_profile
                  (VStr (u "k")) (VStr sample_path) fresh) ++
         [tracker_header; tracker_info] |}.
Proof.
  apply (tracker_follows_generation (generate_pressed (Ok path_response))
           (map ascii_lower) (VStr (u "k")) sample_profile fresh path_response sample_path).
  - reflexivity.
  - reflexivity.
  - apply extract_text_envelope.
Defined.
